(** * Genomic Analysis Tool: a shallow embedding and its verified properties

    The development follows the three Python files of the repository:
    [Genomic_Analysis_Tool.py], [Genomic_Anlysis_Tool_V2.py] and
    [Analysis_Plot.py].

    Conventions of the embedding.
    - A Python [str] is a [string]; a character is read as a code point in
      [0, 255].  On that range [\d] is exactly [0-9] and [\s] (like
      [str.isspace]) is the set 9-13, 28-32, 133, 160.
    - A Python [int] is a [Z]; a Python [float] is a binary64 [float].
    - [print], [messagebox.showerror], [sys.exit] and raised exceptions are
      explicit: a computation yields the list of events it emitted and an
      [outcome]. *)

From Stdlib Require Import ZArith List Bool Lia.
From Stdlib Require Import Strings.String Strings.Ascii DecimalString.
From Stdlib Require Import Sorting.Sorted Sorting.Permutation.
From Stdlib Require Import Floats.PrimFloat.
Import ListNotations.

Open Scope Z_scope.

(** ** Effects: events, outcomes and the monad threading them *)

Inductive exn : Type := ValueError | IndexError | RuntimeError.

Inductive event : Type :=
| Print (msg : string)
| ShowError (title msg : string).

Inductive outcome (A : Type) : Type :=
| Returns (a : A)
| Raises (e : exn)
| SysExit (status : Z).

Arguments Returns {A} a.
Arguments Raises {A} e.
Arguments SysExit {A} status.

(** A computation: the events emitted so far, and how it ended. *)
Definition py (A : Type) : Type := list event * outcome A.

Definition ret {A} (a : A) : py A := ([], Returns a).
Definition raise {A} (e : exn) : py A := ([], Raises e).
Definition print (msg : string) : py unit := ([Print msg], Returns tt).
Definition showerror (title msg : string) : py unit :=
  ([ShowError title msg], Returns tt).
Definition sys_exit {A} (status : Z) : py A := ([], SysExit status).

Definition bind {A B} (m : py A) (f : A -> py B) : py B :=
  match m with
  | (out, Returns a) => let (out', r) := f a in (out ++ out', r)
  | (out, Raises e) => (out, Raises e)
  | (out, SysExit n) => (out, SysExit n)
  end.

Declare Scope py_scope.
Delimit Scope py_scope with py.
Notation "x <- m ;; k" := (bind m (fun x => k))
  (at level 61, m at next level, right associativity) : py_scope.
Notation "m ;; k" := (bind m (fun _ => k))
  (at level 61, right associativity) : py_scope.
Notation "' pat <- m ;; k" := (bind m (fun x => match x with pat => k end))
  (at level 61, pat pattern, m at next level, right associativity) : py_scope.

(** A list comprehension whose element expression may raise. *)
Fixpoint comprehension {A B} (f : A -> py B) (l : list A) : py (list B) :=
  match l with
  | [] => ret []
  | a :: l' =>
      (b <- f a ;; bs <- comprehension f l' ;; ret (b :: bs))%py
  end.

(** [xs[i]] on a list: [IndexError] out of range. *)
Definition index {A} (xs : list A) (i : nat) : py A :=
  match nth_error xs i with
  | Some x => ret x
  | None => raise IndexError
  end.

(** ** The builtins on strings the source calls *)

Module PyStr.

Definition code (c : ascii) : nat := nat_of_ascii c.

Definition between (lo hi n : nat) : bool :=
  (Nat.leb lo n && Nat.leb n hi)%bool.

(** [\d] on code points below 256. *)
Definition is_digit (c : ascii) : bool := between 48 57 (code c).

(** [\s] and [str.isspace] on code points below 256. *)
Definition is_space (c : ascii) : bool :=
  (between 9 13 (code c) || between 28 32 (code c)
   || Nat.eqb (code c) 133 || Nat.eqb (code c) 160)%bool.

(** [\S] *)
Definition is_non_space (c : ascii) : bool := negb (is_space c).

(** The blanks [int] skips around a number: [str.isspace] without the
    separators 28-31. *)
Definition is_int_space (c : ascii) : bool :=
  (between 9 13 (code c) || Nat.eqb (code c) 32
   || Nat.eqb (code c) 133 || Nat.eqb (code c) 160)%bool.

Definition is_empty (s : string) : bool :=
  match s with EmptyString => true | String _ _ => false end.

Fixpoint lstrip_by (p : ascii -> bool) (s : string) : string :=
  match s with
  | EmptyString => EmptyString
  | String c s' => if p c then lstrip_by p s' else s
  end.

Fixpoint rstrip_by (p : ascii -> bool) (s : string) : string :=
  match s with
  | EmptyString => EmptyString
  | String c s' =>
      let t := rstrip_by p s' in
      if (p c && is_empty t)%bool then EmptyString else String c t
  end.

(** [s.strip()] *)
Definition strip (s : string) : string :=
  rstrip_by is_space (lstrip_by is_space s).

(** [s.split(sep)] for a one-character separator. *)
Fixpoint split (sep : ascii) (s : string) : list string :=
  match s with
  | EmptyString => [EmptyString]
  | String c s' =>
      if Ascii.eqb c sep then EmptyString :: split sep s'
      else match split sep s' with
           | h :: t => String c h :: t
           | [] => [String c EmptyString]
           end
  end.

Definition digit_value (c : ascii) : Z := Z.of_nat (code c) - 48.

(** The digits of [int(s)] after blanks and sign: decimal digits, single
    underscores allowed between two digits.  [after_digit] tells whether
    the previous character was a digit. *)
Fixpoint int_digits (acc : Z) (after_digit : bool) (s : string) : option Z :=
  match s with
  | EmptyString => if after_digit then Some acc else None
  | String c s' =>
      if is_digit c then int_digits (10 * acc + digit_value c) true s'
      else if (Ascii.eqb c "_" && after_digit)%bool
           then int_digits acc false s'
           else None
  end.

(** [sys.get_int_max_str_digits()]: the interpreter's limit on the number
    of digits of a string that [int] converts.  The source leaves it at
    its default. *)
Definition int_max_str_digits : nat := 4300.

(** The number of decimal digits in a string; leading zeros count, the
    underscores between digits do not. *)
Fixpoint digit_count (s : string) : nat :=
  match s with
  | EmptyString => O
  | String c s' => if is_digit c then S (digit_count s') else digit_count s'
  end.

(** The digits of [int(s)] under the limit: with more digits than the
    limit the conversion is refused. *)
Definition int_unsigned (s : string) : option Z :=
  if Nat.ltb int_max_str_digits (digit_count s) then None
  else int_digits 0 false s.

(** [int(s)] in base 10; [None] stands for [ValueError], the one of a
    string that is not a number and the one of a string with too many
    digits.  Below the limit on the digits the integers are unbounded. *)
Definition int_of_string (s : string) : option Z :=
  match rstrip_by is_int_space (lstrip_by is_int_space s) with
  | String "+" s' => int_unsigned s'
  | String "-" s' => option_map Z.opp (int_unsigned s')
  | s' => int_unsigned s'
  end.

Definition int (s : string) : py Z :=
  match int_of_string s with
  | Some z => ret z
  | None => raise ValueError
  end.

End PyStr.

(** ** A backtracking matcher for the fragment of [re] the source uses *)

Module Re.

Inductive regex : Type :=
| Bol                               (* ^ *)
| Eol                               (* $ *)
| Lit (c : ascii)                   (* an ordinary character *)
| PlusClass (p : ascii -> bool)     (* a character class followed by + *)
| Cat (r1 r2 : regex)
| Group (n : nat) (r : regex).      (* the n-th pair of parentheses *)

(** Group number and the span [(start, end)] it matched. *)
Definition spans : Type := list (nat * (nat * nat)).

Section Matcher.

Variable R : Type.

(** Greedy repetition: take matching characters while there are any, and
    give them back one at a time while the rest of the pattern fails. *)
Fixpoint greedy (p : ascii -> bool) (k : nat -> string -> option R)
    (pos : nat) (s : string) : option R :=
  match s with
  | String c s' =>
      if p c then
        match greedy p k (S pos) s' with
        | Some r => Some r
        | None => k pos s
        end
      else k pos s
  | EmptyString => k pos s
  end.

(** [$] without [re.MULTILINE]: at the end of the string, or just before a
    newline that is the last character. *)
Definition at_eol (s : string) : bool :=
  match s with
  | EmptyString => true
  | String c EmptyString => Ascii.eqb c "010"
  | _ => false
  end.

Fixpoint run (r : regex) (pos : nat) (s : string) (gs : spans)
    (k : nat -> string -> spans -> option R) : option R :=
  match r with
  | Bol => if Nat.eqb pos 0 then k pos s gs else None
  | Eol => if at_eol s then k pos s gs else None
  | Lit c =>
      match s with
      | String d s' => if Ascii.eqb d c then k (S pos) s' gs else None
      | EmptyString => None
      end
  | PlusClass p =>
      match s with
      | String d s' =>
          if p d then greedy p (fun pos' s'' => k pos' s'' gs) (S pos) s'
          else None
      | EmptyString => None
      end
  | Cat r1 r2 => run r1 pos s gs (fun pos' s' gs' => run r2 pos' s' gs' k)
  | Group n r =>
      run r pos s gs (fun pos' s' gs' => k pos' s' ((n, (pos, pos')) :: gs'))
  end.

End Matcher.

(** A match object: the subject string and the spans of its groups. *)
Record match_object : Type := mkMatch {
  subject : string;
  group_spans : spans
}.

(** [re.match(r, s)]: anchored at the start of [s], not at its end. *)
Definition re_match (r : regex) (s : string) : option match_object :=
  run match_object r 0 s [] (fun _ _ gs => Some (mkMatch s gs)).

Fixpoint span_of (n : nat) (gs : spans) : option (nat * nat) :=
  match gs with
  | [] => None
  | (m, sp) :: gs' => if Nat.eqb m n then Some sp else span_of n gs'
  end.

(** [m.group(n)] for a group that took part in the match. *)
Definition group (m : match_object) (n : nat) : string :=
  match span_of n (group_spans m) with
  | Some (a, b) => substring a (b - a) (subject m)
  | None => EmptyString
  end.

End Re.

Declare Scope regex_scope.
Delimit Scope regex_scope with regex.
Infix "+++" := Re.Cat (at level 60, right associativity) : regex_scope.

(** ** Exon edge inference *)

Module ExonEdges.

(** A junction tuple [(int(j[3]), int(j[4]), float(j[14]))]. *)
Definition junction : Type := Z * Z * float.

Definition j_start (j : junction) : Z := fst (fst j).
Definition j_end (j : junction) : Z := snd (fst j).
Definition j_coverage (j : junction) : float := snd j.

(** The tuple [(current_start, current_end)] appended to [exon_edges]. *)
Definition exon_edge : Type := Z * option Z.

(** [junctions.sort(key=lambda x: x[0])]: a stable ascending sort on the
    first component.  A stable sort has one possible result, so the
    insertion sort below returns the list that Python's sort returns. *)
Fixpoint insert_by_start (j : junction) (l : list junction) : list junction :=
  match l with
  | [] => [j]
  | k :: l' =>
      if j_start j <=? j_start k then j :: k :: l'
      else k :: insert_by_start j l'
  end.

Fixpoint sort_by_start (l : list junction) : list junction :=
  match l with
  | [] => []
  | j :: l' => insert_by_start j (sort_by_start l')
  end.

(** The order the sort establishes, and the test for one sort key. *)
Definition le_start (a b : junction) : Prop := j_start a <= j_start b.
Definition has_start (k : Z) (j : junction) : bool := j_start j =? k.

(** The three loop variables. *)
Record loop_state : Type := mkState {
  exon_edges : list exon_edge;
  current_start : option Z;
  current_end : option Z
}.

Definition initial_state : loop_state := mkState [] None None.

(** [coverage > 0.5] *)
Definition above_threshold (coverage : float) : bool :=
  PrimFloat.ltb 0.5%float coverage.

(** One iteration of [for start, end, coverage in junctions]. *)
Definition loop_body (st : loop_state) (j : junction) : loop_state :=
  let '(start, end_, coverage) := j in
  if above_threshold coverage then
    match current_start st with
    | None => mkState (exon_edges st) (Some start) (Some end_)
    | Some cs => mkState (exon_edges st) (Some cs) (Some end_)
    end
  else
    match current_start st with
    | Some cs =>
        mkState (exon_edges st ++ [(cs, current_end st)]) None None
    | None => st
    end.

(** The statement after the loop and the [return]. *)
Definition after_loop (st : loop_state) : list exon_edge :=
  match current_start st with
  | Some cs => exon_edges st ++ [(cs, current_end st)]
  | None => exon_edges st
  end.

(** Lines 51-67 of [identify_exon_edges]: the sort, the loop and the
    return, on the junction tuples built by lines 49-50.  The name is the
    one the specification gives this part. *)
Definition infer_exon_edges (junctions : list junction) : list exon_edge :=
  after_loop (fold_left loop_body (sort_by_start junctions) initial_state).

End ExonEdges.

(** ** Coordinate parser *)

Open Scope string_scope.

(** [r'^(chr\d+):(\d+)-(\d+)_(\S+)$'] *)
Definition coordinate_re : Re.regex :=
  (Re.Bol
   +++ Re.Group 1 (Re.Lit "c" +++ Re.Lit "h" +++ Re.Lit "r"
                   +++ Re.PlusClass PyStr.is_digit)
   +++ Re.Lit ":" +++ Re.Group 2 (Re.PlusClass PyStr.is_digit)
   +++ Re.Lit "-" +++ Re.Group 3 (Re.PlusClass PyStr.is_digit)
   +++ Re.Lit "_" +++ Re.Group 4 (Re.PlusClass PyStr.is_non_space)
   +++ Re.Eol)%regex.

Import ExonEdges.

(** The tuple [(chromosome, start, end, strand)]. *)
Definition locus : Type := string * Z * Z * string.

Module Genomic_Analysis_Tool.

(** [Genomic_Analysis_Tool.py], lines 17-29. *)
Definition parse_genomic_coordinate (genomic_coordinate : string) : py locus :=
  match Re.re_match coordinate_re genomic_coordinate with
  | Some m =>
      let chromosome := Re.group m 1 in
      let start := Re.group m 2 in
      let end_ := Re.group m 3 in
      let strand := Re.group m 4 in
      (start' <- PyStr.int start ;;
       end' <- PyStr.int end_ ;;
       ret (chromosome, start', end', strand))%py
  | None =>
      (print "Invalid genomic coordinate format" ;; sys_exit 1)%py
  end.

Section Junctions.

(** The builtin [float] on a string; [None] stands for [ValueError]. *)
Variable float_of_string : string -> option float.

Definition to_float (s : string) : py float :=
  match float_of_string s with
  | Some f => ret f
  | None => raise ValueError
  end.

(** [(int(j[3]), int(j[4]), float(j[14]))] *)
Definition junction_of_fields (j : list string) : py junction :=
  (f3 <- index j 3 ;; start <- PyStr.int f3 ;;
   f4 <- index j 4 ;; end_ <- PyStr.int f4 ;;
   f14 <- index j 14 ;; coverage <- to_float f14 ;;
   ret (start, end_, coverage))%py.

(** [Genomic_Analysis_Tool.py], lines 47-67. *)
Definition identify_exon_edges (genomic_coordinate junction_data : string)
  : py (list exon_edge) :=
  let junctions :=
    map (PyStr.split "009") (tl (PyStr.split "010" (PyStr.strip junction_data))) in
  (junctions <- comprehension junction_of_fields junctions ;;
   ret (infer_exon_edges junctions))%py.

End Junctions.

Section Abundance.

(** The numbers a coverage track holds, with Python's [+] on them and the
    image of an [int]. *)
Variable num : Type.
Variable of_int : Z -> num.
Variable add : num -> num -> num.

(** The [pyBigWig] reader: [open] and the [values] method of what it
    returns. *)
Variable bigwig : Type.
Variable bw_open : string -> py (option bigwig).
Variable bw_values : bigwig -> string -> Z -> Z -> py (list (option num)).

(** [sum(xs)]: a left fold of [+] from the integer 0. *)
Definition sum (xs : list num) : num := fold_left add xs (of_int 0).

(** [filter(lambda x: x is not None, values)] *)
Fixpoint filter_not_None (values : list (option num)) : list num :=
  match values with
  | [] => []
  | Some x :: values' => x :: filter_not_None values'
  | None :: values' => filter_not_None values'
  end.

(** Lines 79-83: what one track appends to [abundance]. *)
Definition track_abundance (values : list (option num)) : num :=
  match values with
  | [] => of_int 0
  | _ :: _ => sum (filter_not_None values)
  end.

(** The loop of lines 74-86, from the current [abundance]. *)
Fixpoint for_bigwig_files (chromosome : string) (start end_ : Z)
    (bigwig_files : list string) (abundance : list num) : py (list num) :=
  match bigwig_files with
  | [] => ret abundance
  | bw_file :: rest =>
      (bw <- bw_open bw_file ;;
       match bw with
       | Some bw =>
           values <- bw_values bw chromosome start end_ ;;
           for_bigwig_files chromosome start end_ rest
             (abundance ++ [track_abundance values])
       | None =>
           print ("Failed to open BigWig file: " ++ bw_file) ;; sys_exit 1
       end)%py
  end.

(** [Genomic_Analysis_Tool.py], lines 70-87. *)
Definition measure_transcription_abundance (genomic_coordinate : string)
    (bigwig_files : list string) : py (list num) :=
  ('(chromosome, start, end_, _) <- parse_genomic_coordinate genomic_coordinate ;;
   for_bigwig_files chromosome start end_ bigwig_files [])%py.

End Abundance.

End Genomic_Analysis_Tool.

Module Genomic_Anlysis_Tool_V2.

(** [Genomic_Anlysis_Tool_V2.py], lines 139-149: the window's parser
    reports through a message box. *)
Definition parse_genomic_coordinate (genomic_coordinate : string) : py locus :=
  match Re.re_match coordinate_re genomic_coordinate with
  | Some m =>
      let chromosome := Re.group m 1 in
      let start := Re.group m 2 in
      let end_ := Re.group m 3 in
      let strand := Re.group m 4 in
      (start' <- PyStr.int start ;;
       end' <- PyStr.int end_ ;;
       ret (chromosome, start', end', strand))%py
  | None =>
      (showerror "Error" "Invalid genomic coordinate format" ;; sys_exit 1)%py
  end.

(** [Genomic_Anlysis_Tool_V2.py], lines 163-181: the same text as lines
    47-67 of [Genomic_Analysis_Tool.py]. *)
Definition identify_exon_edges (float_of_string : string -> option float)
    (genomic_coordinate junction_data : string) : py (list exon_edge) :=
  let junctions :=
    map (PyStr.split "009") (tl (PyStr.split "010" (PyStr.strip junction_data))) in
  (junctions <- comprehension
                  (Genomic_Analysis_Tool.junction_of_fields float_of_string)
                  junctions ;;
   ret (infer_exon_edges junctions))%py.

End Genomic_Anlysis_Tool_V2.

Module Analysis_Plot.

(** [Analysis_Plot.py], lines 6-16: on a mismatch the function prints and
    returns [None]. *)
Definition parse_genomic_coordinate (genomic_coordinate : string)
  : py (option locus) :=
  match Re.re_match coordinate_re genomic_coordinate with
  | Some m =>
      let chromosome := Re.group m 1 in
      let start := Re.group m 2 in
      let end_ := Re.group m 3 in
      let strand := Re.group m 4 in
      (start' <- PyStr.int start ;;
       end' <- PyStr.int end_ ;;
       ret (Some (chromosome, start', end', strand)))%py
  | None =>
      (print "Invalid genomic coordinate format" ;; ret None)%py
  end.

End Analysis_Plot.

(** ** The rest of [Genomic_Analysis_Tool.py]: the request and the command *)

Module PyFmt.

(** [str(n)] of an [int], also what [{n}] gives in an f-string. *)
Definition str_of_int (z : Z) : string := NilZero.string_of_int (Z.to_int z).

(** [str(v)] of a value that is an [int] or [None]. *)
Definition str_of_optional_int (v : option Z) : string :=
  match v with
  | Some z => str_of_int z
  | None => "None"
  end.

(** The truth value of a value that is [None] or a [str]. *)
Definition truthy (v : option string) : bool :=
  match v with
  | Some (String _ _) => true
  | Some EmptyString => false
  | None => false
  end.

(** [{v}] in an f-string for such a value. *)
Definition format_optional_str (v : option string) : string :=
  match v with
  | Some s => s
  | None => "None"
  end.

End PyFmt.

(** [try: body except Exception as e: handler].  The three classes of
    [exn] derive from [Exception]; [SystemExit] does not, so an exit goes
    through. *)
Definition try_except_Exception {A} (body : py A) (handler : exn -> py A)
  : py A :=
  match body with
  | (out, Returns a) => (out, Returns a)
  | (out, Raises e) =>
      let (out', r) := handler e in ((out ++ out')%list, r)
  | (out, SysExit n) => (out, SysExit n)
  end.

(** [for x in xs: body] *)
Fixpoint for_each {A} (xs : list A) (body : A -> py unit) : py unit :=
  match xs with
  | [] => ret tt
  | x :: xs' => (body x ;; for_each xs' body)%py
  end.

(** What the code reads of the object [requests.get] returns. *)
Record http_response : Type := mkResponse {
  status_code : Z;
  text : string
}.

Module Genomic_Analysis_Tool_Main.

Section Commands.

(** The builtin [float], the numbers of the tracks and the [pyBigWig]
    reader, as in [Genomic_Analysis_Tool]. *)
Variable float_of_string : string -> option float.
Variable num : Type.
Variable of_int : Z -> num.
Variable add : num -> num -> num.
Variable bigwig : Type.
Variable bw_open : string -> py (option bigwig).
Variable bw_values : bigwig -> string -> Z -> Z -> py (list (option num)).

(** [requests.get(url)] *)
Variable requests_get : string -> py http_response.

(** [str(x)] of a number of a track, and [str(e)] of a caught exception.
    The model keeps the class of an exception only, so its text is a
    parameter. *)
Variable str_of_num : num -> string.
Variable str_of_exn : exn -> string.

(** The URL of lines 35-37. *)
Definition snaptron_url (chromosome : string) (start end_ : Z)
    (strand : string) (filter_condition : option string) : string :=
  let url :=
    "https://snaptron.cs.jhu.edu/srav2/snaptron?regions=" ++ chromosome
    ++ ":" ++ PyFmt.str_of_int start ++ "-" ++ PyFmt.str_of_int end_
    ++ "&rfilter=strand:" ++ strand in
  if PyFmt.truthy filter_condition
  then url ++ "&rfilter=" ++ PyFmt.format_optional_str filter_condition
  else url.

(** [Genomic_Analysis_Tool.py], lines 32-44. *)
Definition retrieve_junction_data (genomic_coordinate : string)
    (filter_condition : option string) : py string :=
  ('(chromosome, start, end_, strand) <-
     Genomic_Analysis_Tool.parse_genomic_coordinate genomic_coordinate ;;
   let url := snaptron_url chromosome start end_ strand filter_condition in
   response <- requests_get url ;;
   if (status_code response =? 200)%Z then ret (text response)
   else (print "Failed to retrieve junction data from Snaptron" ;;
         sys_exit 1))%py.

(** The line printed for one edge, line 98. *)
Definition edge_line (edge : exon_edge) : string :=
  "Start: " ++ PyFmt.str_of_int (fst edge)
  ++ ", End: " ++ PyFmt.str_of_optional_int (snd edge).

(** The handler of lines 99-100 and 106-107. *)
Definition report (e : exn) : py unit :=
  print ("An error occurred: " ++ str_of_exn e).

(** [Genomic_Analysis_Tool.py], lines 90-107.  [bigwig_file] is the path
    the command line passes in the abundance mode. *)
Definition analyze_genomic_data (genomic_coordinate analyze_option : string)
    (filter_condition : option string) (bigwig_file : string) : py unit :=
  if String.eqb analyze_option "Exon Edge Finder" then
    try_except_Exception
      (junction_data <-
         retrieve_junction_data genomic_coordinate filter_condition ;;
       exon_edges <-
         Genomic_Analysis_Tool.identify_exon_edges float_of_string
           genomic_coordinate junction_data ;;
       print "Exon Edges:" ;;
       for_each exon_edges (fun edge => print (edge_line edge)))%py
      report
  else if String.eqb analyze_option "Genomic Abundance Analyzer" then
    try_except_Exception
      (abundance <-
         Genomic_Analysis_Tool.measure_transcription_abundance
           num of_int add bigwig bw_open bw_values
           genomic_coordinate [bigwig_file] ;;
       first <- index abundance 0 ;;
       print ("Transcription Abundance:" ++ String "010" EmptyString
              ++ bigwig_file ++ ": " ++ str_of_num first))%py
      report
  else ret tt.

End Commands.

End Genomic_Analysis_Tool_Main.

(** ** The grid of plots of [Genomic_Anlysis_Tool_V2.py] *)

Module V2_subplots.

Local Open Scope Z_scope.

(** [a // b] and [a % b]; [None] stands for [ZeroDivisionError]. *)
Definition floordiv (a b : Z) : option Z :=
  if b =? 0 then None else Some (a / b).
Definition modulo (a b : Z) : option Z :=
  if b =? 0 then None else Some (a mod b).

(** Lines 208-210 of [analyze_genomic_data]. *)
Definition num_cols (num_plots : Z) : Z := Z.min num_plots 3.
Definition num_rows (num_plots : Z) : Z := (num_plots - 1) / 3 + 1.

(** Lines 228-229: the cell [(row, col)] of the [i]-th coordinate. *)
Definition cell (num_plots i : Z) : option (Z * Z) :=
  match floordiv i (num_cols num_plots), modulo i (num_cols num_plots) with
  | Some row, Some col => Some (row, col)
  | _, _ => None
  end.

End V2_subplots.

(** ** The arrays of [plot_junction_position] in [Analysis_Plot.py] *)

Module Analysis_Plot_arrays.

(** Line 48: [[j[0] for j in junction_data] + [j[1] for j in junction_data]]. *)
Definition positions (junction_data : list junction) : list Z :=
  (map j_start junction_data ++ map j_end junction_data)%list.

(** Line 49: [[j[2] for j in junction_data] * 2]. *)
Definition coverages (junction_data : list junction) : list float :=
  let c := map j_coverage junction_data in (c ++ c)%list.

End Analysis_Plot_arrays.

Close Scope string_scope.

(** * Predicates of the statements *)

(** ** On junction records and loop states *)

(** A record qualifies when its coverage passes the test of the loop. *)
Definition above (j : junction) : Prop := above_threshold (j_coverage j) = true.
Definition not_above (j : junction) : Prop :=
  above_threshold (j_coverage j) = false.

(** The start an interval has after a qualifying record: the one already
    open, or else the record's. *)
Definition opening (st : loop_state) (j : junction) : Z :=
  match current_start st with
  | Some cs => cs
  | None => j_start j
  end.

(** Edge starts in ascending order. *)
Definition ascending (es : list exon_edge) : Prop :=
  StronglySorted Z.le (map fst es).

(** What the loop maintains while the records still to come start at [b]
    or later. *)
Definition edges_behind (b : Z) (st : loop_state) : Prop :=
  ascending (exon_edges st) /\
  match current_start st with
  | Some cs => Forall (fun x => fst x <= cs) (exon_edges st) /\ cs <= b
  | None => Forall (fun x => fst x <= b) (exon_edges st)
  end.

(** ** On strings *)

Open Scope string_scope.

Fixpoint string_forall (p : ascii -> bool) (s : string) : bool :=
  match s with
  | EmptyString => true
  | String c s' => p c && string_forall p s'
  end.

(** One or more characters, all in the class [p]. *)
Definition one_or_more (p : ascii -> bool) (s : string) : bool :=
  negb (PyStr.is_empty s) && string_forall p s.

(** [s] is empty or starts outside the class [p]. *)
Definition stops (p : ascii -> bool) (s : string) : bool :=
  match s with
  | EmptyString => true
  | String c _ => negb (p c)
  end.

(** The value of a digit string read in base 10, most significant digit
    first. *)
Fixpoint decimal_from (acc : Z) (s : string) : Z :=
  match s with
  | EmptyString => acc
  | String c s' => decimal_from (10 * acc + PyStr.digit_value c) s'
  end.

Definition decimal_value (s : string) : Z := decimal_from 0 s.

(** The text the pattern describes: [chr], digits, [:], digits, [-],
    digits, [_], and a token. *)
Definition locus_text (d1 d2 d3 tok : string) : string :=
  "chr" ++ d1 ++ ":" ++ d2 ++ "-" ++ d3 ++ "_" ++ tok.

Definition digits (s : string) : Prop := one_or_more PyStr.is_digit s = true.

(** A string with no more characters than [int] accepts digits. *)
Definition within_cap (s : string) : Prop :=
  Nat.leb (String.length s) PyStr.int_max_str_digits = true.

(** [n] times the character [c]. *)
Fixpoint repeat_char (c : ascii) (n : nat) : string :=
  match n with
  | O => EmptyString
  | S n' => String c (repeat_char c n')
  end.
Definition token (s : string) : Prop := one_or_more PyStr.is_non_space s = true.

(** A string matching the pattern, as the specification words it. *)
Definition locus_string (s : string) : Prop :=
  exists d1 d2 d3 tok,
    digits d1 /\ digits d2 /\ digits d3 /\ token tok
    /\ s = locus_text d1 d2 d3 tok.

Definition newline : string := String "010" EmptyString.

(** The spans of the four groups in a match of [locus_text d1 d2 d3 tok]. *)
Definition locus_spans (d1 d2 d3 tok : string) : Re.spans :=
  let b1 := (3 + String.length d1)%nat in
  let b2 := (S b1 + String.length d2)%nat in
  let b3 := (S b2 + String.length d3)%nat in
  let b4 := (S b3 + String.length tok)%nat in
  [(4, (S b3, b4)); (3, (S b2, b3)); (2, (S b1, b2)); (1, (0, b1))]%nat.

(** The message of every parser on a mismatch. *)
Definition invalid_format : string := "Invalid genomic coordinate format".

(** The claim of the specification on failures: what a parse of a
    mismatching string produces lets the caller read the string back. *)
Definition failure_carries_input {A} (parse : string -> py A) : Prop :=
  exists offending : py A -> string,
    forall s, ~ locus_string s -> offending (parse s) = s.

Close Scope string_scope.

(** ** On coverage tracks *)

(** The value an entry of a track stands for when absent entries count as
    zero. *)
Definition value_or_zero {num} (of_int : Z -> num) (v : option num) : num :=
  match v with
  | Some x => x
  | None => of_int 0
  end.

(** ** On the request, the tracks and the junction text *)

Open Scope string_scope.

(** The message of [retrieve_junction_data] on a status other than 200. *)
Definition failed_to_retrieve : string :=
  "Failed to retrieve junction data from Snaptron".

(** The file [f] opens as [handle f] and reads as [values f], silently. *)
Definition reads {num bigwig : Type}
    (bw_open : string -> py (option bigwig))
    (bw_values : bigwig -> string -> Z -> Z -> py (list (option num)))
    (chromosome : string) (start end_ : Z)
    (handle : string -> bigwig) (values : string -> list (option num))
    (f : string) : Prop :=
  bw_open f = ret (Some (handle f))
  /\ bw_values (handle f) chromosome start end_ = ret (values f).

(** The fields of the data lines: line 49 of the source. *)
Definition data_lines (junction_data : string) : list (list string) :=
  map (PyStr.split "009")
    (tl (PyStr.split "010" (PyStr.strip junction_data))).

(** The fields [j] hold the record [x]: fields 3 and 4 are read by [int]
    as its start and end, field 14 by [float] as its coverage. *)
Definition decodes (float_of_string : string -> option float)
    (j : list string) (x : junction) : Prop :=
  exists f3 f4 f14,
    nth_error j 3 = Some f3 /\ nth_error j 4 = Some f4
    /\ nth_error j 14 = Some f14
    /\ PyStr.int_of_string f3 = Some (j_start x)
    /\ PyStr.int_of_string f4 = Some (j_end x)
    /\ float_of_string f14 = Some (j_coverage x).

(** A computation that prints nothing and ends by returning or by one of
    the two exceptions of [int], [float] and indexing. *)
Definition quiet {A} (m : py A) : Prop :=
  (exists a, m = ret a) \/ m = raise ValueError \/ m = raise IndexError.

(** A string made of blanks only. *)
Definition blank (s : string) : Prop := string_forall PyStr.is_space s = true.

(** A header line: it starts with a character that is not a blank and
    holds no newline. *)
Definition header_line (h : string) : Prop :=
  stops PyStr.is_space h = true /\ h <> ""
  /\ string_forall (fun c => negb (Ascii.eqb c "010")) h = true.

Close Scope string_scope.

(** ** On the states of the loop and the provenance of edges *)

(** A state the loop can be in: no end without a start. *)
Definition no_end_without_start (st : loop_state) : Prop :=
  current_start st = None -> current_end st = None.

(** The same state with edges put in front of its edges. *)
Definition with_earlier_edges (es : list exon_edge) (st : loop_state)
  : loop_state :=
  mkState (es ++ exon_edges st) (current_start st) (current_end st).

(** An edge whose start satisfies [Ps] and whose end is present and
    satisfies [Pe]. *)
Definition edge_from (Ps Pe : Z -> Prop) (x : exon_edge) : Prop :=
  Ps (fst x) /\ exists e, snd x = Some e /\ Pe e.

(** Two records with equal start, equal end and equal answer to the
    test. *)
Definition same_but_coverage (j j' : junction) : Prop :=
  j_start j = j_start j' /\ j_end j = j_end j'
  /\ above_threshold (j_coverage j) = above_threshold (j_coverage j').

(** ** Sample inputs *)

(** A [float] that reads the three scores of the sample text. *)
Definition sample_float_of_string (s : string) : option float :=
  if String.eqb s "1.0" then Some 1.0%float
  else if String.eqb s "2.0" then Some 2.0%float
  else if String.eqb s "0.25" then Some 0.25%float
  else None.

(** A data line with [a], [b] and [c] in the fields 3, 4 and 14. *)
Definition sample_line (a b c : string) : string :=
  String.concat (String "009" EmptyString)
    [a; b; c; a; b; c; c; c; c; c; c; c; c; c; c]%string.

Definition sample_text : string :=
  String.concat newline
    ["header"%string; sample_line "150" "200" "2.0";
     sample_line "100" "150" "1.0"; EmptyString].

(** * Properties *)

Set Warnings "-inexact-float".

(** ** The sort *)

Section SortFacts.

Lemma insert_by_start_perm (j : junction) (l : list junction) :
  Permutation (insert_by_start j l) (j :: l).
Proof.
  induction l as [|k l IH]; simpl.
  - apply Permutation_refl.
  - destruct (j_start j <=? j_start k).
    + apply Permutation_refl.
    + eapply perm_trans; [apply perm_skip, IH | apply perm_swap].
Qed.

Lemma sort_by_start_perm (l : list junction) :
  Permutation (sort_by_start l) l.
Proof.
  induction l as [|j l IH]; simpl.
  - constructor.
  - eapply perm_trans; [apply insert_by_start_perm | apply perm_skip, IH].
Qed.

Lemma insert_by_start_sorted (j : junction) (l : list junction) :
  StronglySorted le_start l -> StronglySorted le_start (insert_by_start j l).
Proof.
  induction 1 as [|k l Hl IH Hk]; simpl.
  - repeat constructor.
  - destruct (j_start j <=? j_start k) eqn:E.
    + apply Z.leb_le in E. constructor.
      * constructor; assumption.
      * constructor; [exact E|].
        eapply Forall_impl; [|exact Hk].
        intros a Ha. unfold le_start in *. lia.
    + apply Z.leb_gt in E. constructor; [exact IH|].
      eapply Permutation_Forall.
      * apply Permutation_sym, insert_by_start_perm.
      * constructor; [unfold le_start; lia | exact Hk].
Qed.

Lemma sort_by_start_sorted (l : list junction) :
  StronglySorted le_start (sort_by_start l).
Proof.
  induction l as [|j l IH]; simpl.
  - constructor.
  - apply insert_by_start_sorted, IH.
Qed.

(** Inserting leaves the records of each start in their relative order,
    the new one first among its equals. *)
Lemma insert_by_start_stable (k : Z) (j : junction) (l : list junction) :
  StronglySorted le_start l ->
  filter (has_start k) (insert_by_start j l) = filter (has_start k) (j :: l).
Proof.
  induction 1 as [|x l Hl IH Hx]; [reflexivity|].
  simpl insert_by_start.
  destruct (j_start j <=? j_start x) eqn:E; [reflexivity|].
  apply Z.leb_gt in E.
  change (filter (has_start k) (x :: insert_by_start j l))
    with (if has_start k x then x :: filter (has_start k) (insert_by_start j l)
          else filter (has_start k) (insert_by_start j l)).
  rewrite IH. simpl. unfold has_start.
  destruct (j_start x =? k) eqn:Ex, (j_start j =? k) eqn:Ej; try reflexivity.
  apply Z.eqb_eq in Ex, Ej. lia.
Qed.

Lemma sort_by_start_stable (k : Z) (l : list junction) :
  filter (has_start k) (sort_by_start l) = filter (has_start k) l.
Proof.
  induction l as [|j l IH]; [reflexivity|].
  simpl sort_by_start.
  rewrite insert_by_start_stable by apply sort_by_start_sorted.
  simpl. now rewrite IH.
Qed.

End SortFacts.

(** ** The loop *)

(** With no interval open, records that do not qualify change nothing. *)
Lemma loop_all_not_above (l : list junction) (st : loop_state) :
  Forall not_above l -> current_start st = None ->
  fold_left loop_body l st = st.
Proof.
  intros Hl. revert st. induction Hl as [|[[s e] c] l Hj _ IH]; intros st Hst.
  - reflexivity.
  - unfold not_above, j_coverage in Hj. simpl in Hj.
    assert (E : loop_body st (s, e, c) = st).
    { unfold loop_body. rewrite Hj, Hst. reflexivity. }
    cbn [fold_left]. rewrite E. apply IH, Hst.
Qed.

Lemma loop_body_above (st : loop_state) (j : junction) :
  above j ->
  loop_body st j = mkState (exon_edges st) (Some (opening st j)) (Some (j_end j)).
Proof.
  destruct j as [[s e] c]. unfold above, j_coverage, loop_body, opening. simpl.
  intros ->. destruct (current_start st); reflexivity.
Qed.

Lemma last_cons {A} (l : list A) (k d : A) : last (k :: l) d = last l k.
Proof.
  revert k d. induction l as [|x l IH]; intros k d; [reflexivity|].
  change (last (k :: x :: l) d) with (last (x :: l) d).
  now rewrite !IH.
Qed.

(** A run of qualifying records leaves the edges alone, keeps (or sets) the
    opening start and ends with the end of its last record. *)
Lemma loop_all_above (j : junction) (l : list junction) (st : loop_state) :
  Forall above (j :: l) ->
  fold_left loop_body (j :: l) st
  = mkState (exon_edges st) (Some (opening st j)) (Some (j_end (last l j))).
Proof.
  revert j st. induction l as [|k l IH]; intros j st H.
  - simpl. apply loop_body_above. now inversion H.
  - inversion H as [|? ? Hj Hkl]; subst.
    change (fold_left loop_body (j :: k :: l) st)
      with (fold_left loop_body (k :: l) (loop_body st j)).
    rewrite (IH k (loop_body st j) Hkl).
    rewrite (loop_body_above st j Hj). unfold opening at 1.
    cbn [exon_edges current_start]. now rewrite (last_cons l k j).
Qed.

Lemma ascending_snoc (es : list exon_edge) (e : exon_edge) :
  ascending es -> Forall (fun x => fst x <= fst e) es -> ascending (es ++ [e]).
Proof.
  unfold ascending. induction es as [|x es IH]; simpl; intros Hs Hb.
  - repeat constructor.
  - inversion Hs; subst. inversion Hb; subst.
    constructor; [now apply IH|].
    rewrite map_app, Forall_app. split; [assumption|].
    repeat constructor. assumption.
Qed.

Lemma Forall_fst_le (b b' : Z) (es : list exon_edge) :
  b <= b' -> Forall (fun x => fst x <= b) es -> Forall (fun x => fst x <= b') es.
Proof.
  intros Hb. apply Forall_impl. intros a Ha. lia.
Qed.

Lemma loop_body_edges_behind (b : Z) (st : loop_state) (j : junction) :
  b <= j_start j -> edges_behind b st -> edges_behind (j_start j) (loop_body st j).
Proof.
  destruct j as [[s e] c]. unfold j_start, edges_behind, loop_body. simpl.
  intros Hb [Hs Hc].
  destruct (above_threshold c), (current_start st) as [cs|] eqn:E; simpl;
    rewrite ?E.
  - destruct Hc as [Hc Hle]. repeat split; [assumption..|lia].
  - repeat split; [assumption| |lia]. now apply Forall_fst_le with b.
  - destruct Hc as [Hc Hle]. split.
    + now apply ascending_snoc.
    + rewrite Forall_app. split.
      * apply Forall_fst_le with cs; [lia|assumption].
      * repeat constructor. simpl. lia.
  - split; [assumption|]. now apply Forall_fst_le with b.
Qed.

Lemma loop_edges_behind (l : list junction) :
  StronglySorted le_start l ->
  forall b st, Forall (fun j => b <= j_start j) l -> edges_behind b st ->
  ascending (after_loop (fold_left loop_body l st)).
Proof.
  induction 1 as [|j l Hl IH Hj]; intros b st Hb Hst.
  - simpl. destruct Hst as [Hs Hc]. unfold after_loop.
    destruct (current_start st) as [cs|]; [|assumption].
    apply ascending_snoc; [assumption | apply Hc].
  - inversion Hb; subst. cbn [fold_left].
    apply IH with (b := j_start j).
    + exact Hj.
    + now apply loop_body_edges_behind with b.
Qed.

(** ** Claims on the exon edges *)

(** C1. Overwrite, not maximum: a qualifying record sets the running end to
    its own end whatever the end was; two qualifying records already in
    start order give one edge from the first start to the second end, also
    when the second end is the smaller one; and
    [(100,300,1.0); (110,120,1.0)] gives exactly [(100,120)]. *)
Theorem C1_running_end_is_overwritten :
  (forall st s e c, above_threshold c = true ->
     current_end (loop_body st (s, e, c)) = Some e)
  /\ (forall s1 e1 c1 s2 e2 c2,
        s1 <= s2 -> above_threshold c1 = true -> above_threshold c2 = true ->
        infer_exon_edges [(s1, e1, c1); (s2, e2, c2)] = [(s1, Some e2)])
  /\ infer_exon_edges [(100, 300, 1.0%float); (110, 120, 1.0%float)]
     = [(100, Some 120)].
Proof.
  split; [|split].
  - intros st s e c Hc. unfold loop_body. rewrite Hc.
    destruct (current_start st); reflexivity.
  - intros s1 e1 c1 s2 e2 c2 Hle H1 H2.
    unfold infer_exon_edges. simpl sort_by_start. unfold j_start. simpl.
    apply Z.leb_le in Hle. rewrite Hle.
    rewrite (loop_all_above (s1, e1, c1) [(s2, e2, c2)]).
    + reflexivity.
    + repeat constructor; assumption.
  - reflexivity.
Qed.

Lemma C1_running_end_is_overwritten_witness :
  current_end (loop_body initial_state (110, 120, 1.0%float)) = Some 120
  /\ infer_exon_edges [(100, 300, 2.0%float); (110, 120, 3.0%float)]
     = [(100, Some 120)].
Proof.
  split.
  - apply (proj1 C1_running_end_is_overwritten). reflexivity.
  - apply (proj1 (proj2 C1_running_end_is_overwritten));
      [lia | reflexivity | reflexivity].
Defined.

(** C2. The test is strictly greater than 0.5: coverage 0.5 does not
    qualify and 0.50001 does.  A record of coverage 0.5 leaves no interval
    open: it changes nothing when none is open, and closes the open one
    with the end it already had.  A record of coverage 0.50001 opens an
    interval at its start, or keeps the open one, and sets the running end
    to its end. *)
Theorem C2_threshold_is_strict :
  above_threshold 0.5%float = false
  /\ above_threshold 0.50001%float = true
  /\ (forall st s e,
        current_start (loop_body st (s, e, 0.5%float)) = None
        /\ (current_start st = None -> loop_body st (s, e, 0.5%float) = st)
        /\ (forall cs, current_start st = Some cs ->
              loop_body st (s, e, 0.5%float)
              = mkState (exon_edges st ++ [(cs, current_end st)]) None None))
  /\ (forall st s e,
        loop_body st (s, e, 0.50001%float)
        = mkState (exon_edges st) (Some (opening st (s, e, 0.50001%float)))
            (Some e))
  /\ (forall s e, infer_exon_edges [(s, e, 0.5%float)] = [])
  /\ (forall s e, infer_exon_edges [(s, e, 0.50001%float)] = [(s, Some e)]).
Proof.
  assert (H5 : above_threshold 0.5%float = false) by reflexivity.
  assert (H6 : above_threshold 0.50001%float = true) by reflexivity.
  split; [exact H5|]. split; [exact H6|].
  split; [|split; [|split]].
  - intros st s e. split; [|split].
    + unfold loop_body. rewrite H5. destruct (current_start st) eqn:E; auto.
    + intros Hst. unfold loop_body. rewrite H5, Hst. reflexivity.
    + intros cs Hst. unfold loop_body. rewrite H5, Hst. reflexivity.
  - intros st s e. apply (loop_body_above st (s, e, 0.50001%float)). exact H6.
  - intros s e. reflexivity.
  - intros s e. reflexivity.
Qed.

Lemma C2_threshold_is_strict_witness :
  loop_body initial_state (7, 9, 0.5%float) = initial_state
  /\ loop_body (mkState [] (Some 1) (Some 4)) (7, 9, 0.5%float)
     = mkState [(1, Some 4)] None None.
Proof.
  split.
  - apply (proj1 (proj2 (proj2 C2_threshold_is_strict))). reflexivity.
  - apply (proj1 (proj2 (proj2 C2_threshold_is_strict))
             (mkState [] (Some 1) (Some 4)) 7 9).
    reflexivity.
Defined.

(** Every start the loop reports was read from a record. *)
Lemma loop_starts_from_records (P : Z -> Prop) (l : list junction) :
  Forall (fun j => P (j_start j)) l ->
  forall st,
    Forall (fun x => P (fst x)) (exon_edges st) ->
    (forall cs, current_start st = Some cs -> P cs) ->
    Forall (fun x => P (fst x)) (after_loop (fold_left loop_body l st)).
Proof.
  induction 1 as [|[[s e] c] l Hj _ IH]; intros st He Hc.
  - simpl. unfold after_loop. destruct (current_start st) as [cs|]; [|exact He].
    rewrite Forall_app. split; [exact He|]. repeat constructor. now apply Hc.
  - cbn [fold_left]. apply IH; unfold loop_body.
    + destruct (above_threshold c), (current_start st) as [cs|]; simpl;
        try exact He.
      rewrite Forall_app. split; [exact He|]. repeat constructor. now apply Hc.
    + intros cs'. unfold j_start in Hj. simpl in Hj.
      destruct (above_threshold c), (current_start st) as [cs|] eqn:E; simpl;
        rewrite ?E; intros H; inversion H; subst; auto.
Qed.

(** The end of a reported edge is never [None]: an interval is only open
    with an end. *)
Lemma loop_edges_have_ends (l : list junction) :
  forall st,
    Forall (fun x => snd x <> None) (exon_edges st) ->
    (current_start st <> None -> current_end st <> None) ->
    Forall (fun x => snd x <> None) (after_loop (fold_left loop_body l st)).
Proof.
  induction l as [|[[s e] c] l IH]; intros st He Hc.
  - simpl. unfold after_loop.
    destruct (current_start st) as [cs|] eqn:E; [|exact He].
    rewrite Forall_app. split; [exact He|]. repeat constructor. simpl.
    apply Hc. discriminate.
  - cbn [fold_left]. apply IH; unfold loop_body;
      destruct (above_threshold c), (current_start st) as [cs|] eqn:E; simpl;
      rewrite ?E; try exact He; try discriminate; try (intros H; now elim H).
    rewrite Forall_app. split; [exact He|]. repeat constructor. simpl.
    apply Hc. discriminate.
Qed.

Lemma infer_exon_edges_have_ends (junctions : list junction) :
  Forall (fun x => snd x <> None) (infer_exon_edges junctions).
Proof.
  unfold infer_exon_edges. apply loop_edges_have_ends.
  - constructor.
  - intros H. now elim H.
Qed.

(** C3. The records are put in ascending order of start by a stable sort
    (a permutation, ordered by start, that keeps the input order among the
    records of each start); the loop runs over that sorted list; and the
    edges come out in ascending order of their opening start, each opening
    start being the start of an input record. *)
Theorem C3_stable_sort_then_ascending_edges (junctions : list junction) :
  Permutation (sort_by_start junctions) junctions
  /\ StronglySorted le_start (sort_by_start junctions)
  /\ (forall k, filter (has_start k) (sort_by_start junctions)
                = filter (has_start k) junctions)
  /\ infer_exon_edges junctions
     = after_loop (fold_left loop_body (sort_by_start junctions) initial_state)
  /\ StronglySorted Z.le (map fst (infer_exon_edges junctions))
  /\ Forall (fun x => In (fst x) (map j_start junctions))
       (infer_exon_edges junctions).
Proof.
  split; [apply sort_by_start_perm|].
  split; [apply sort_by_start_sorted|].
  split; [intros k; apply sort_by_start_stable|].
  split; [reflexivity|].
  split.
  - unfold infer_exon_edges.
    pose proof (sort_by_start_sorted junctions) as Hs.
    destruct (sort_by_start junctions) as [|j l] eqn:E.
    + constructor.
    + apply (loop_edges_behind (j :: l) Hs (j_start j)).
      * inversion Hs; subst. constructor; [lia|assumption].
      * split; constructor.
  - unfold infer_exon_edges.
    apply (loop_starts_from_records (fun z => In z (map j_start junctions))).
    + eapply Permutation_Forall.
      * apply Permutation_sym, sort_by_start_perm.
      * apply Forall_forall. intros j Hj. now apply in_map.
    + constructor.
    + intros cs H. discriminate H.
Qed.

(** C4. When every record qualifies and there is at least one, the result
    is one edge, from the start of the first record in sorted order to the
    end of the last record in sorted order; an interval left open by the
    loop is closed and appended; and
    [(100,150,1.0); (150,200,2.0); (200,250,0.3)] gives [(100,200)]. *)
Theorem C4_all_above_gives_one_edge :
  (forall j l, Forall above (j :: l) ->
     infer_exon_edges (j :: l)
     = [(j_start (hd j (sort_by_start (j :: l))),
         Some (j_end (last (sort_by_start (j :: l)) j)))])
  /\ (forall st cs, current_start st = Some cs ->
        after_loop st = exon_edges st ++ [(cs, current_end st)])
  /\ infer_exon_edges
       [(100, 150, 1.0%float); (150, 200, 2.0%float); (200, 250, 0.3%float)]
     = [(100, Some 200)].
Proof.
  split; [|split].
  - intros j l H. unfold infer_exon_edges.
    assert (Hp : Permutation (sort_by_start (j :: l)) (j :: l))
      by apply sort_by_start_perm.
    assert (Ha : Forall above (sort_by_start (j :: l))).
    { eapply Permutation_Forall; [apply Permutation_sym, Hp | exact H]. }
    destruct (sort_by_start (j :: l)) as [|j' l'].
    + apply Permutation_nil_cons in Hp. contradiction.
    + rewrite (loop_all_above j' l' initial_state Ha).
      rewrite (last_cons l' j' j). reflexivity.
  - intros st cs H. unfold after_loop. now rewrite H.
  - reflexivity.
Qed.

Lemma C4_all_above_gives_one_edge_witness :
  infer_exon_edges [(150, 200, 2.0%float); (100, 150, 1.0%float)]
  = [(100, Some 200)]
  /\ after_loop (mkState [] (Some 100) (Some 200)) = [(100, Some 200)].
Proof.
  split.
  - apply (proj1 C4_all_above_gives_one_edge
             (150, 200, 2.0%float) [(100, 150, 1.0%float)]).
    repeat constructor.
  - apply (proj1 (proj2 C4_all_above_gives_one_edge)
             (mkState [] (Some 100) (Some 200)) 100).
    reflexivity.
Defined.

(** C5. When no record has a coverage above 0.5 the result is empty; the
    empty input is such a case.  The function is total: it returns a list
    on every input.  On an empty junction text [identify_exon_edges]
    returns the empty list without raising. *)
Theorem C5_nothing_above_gives_no_edge :
  (forall junctions, Forall not_above junctions ->
     infer_exon_edges junctions = [])
  /\ infer_exon_edges [] = []
  /\ (forall float_of_string genomic_coordinate,
        Genomic_Analysis_Tool.identify_exon_edges float_of_string
          genomic_coordinate ""
        = ret []).
Proof.
  split; [|split; reflexivity].
  intros junctions H. unfold infer_exon_edges.
  rewrite loop_all_not_above; [reflexivity| |reflexivity].
  eapply Permutation_Forall; [|exact H].
  apply Permutation_sym, sort_by_start_perm.
Qed.

Lemma C5_nothing_above_gives_no_edge_witness :
  infer_exon_edges [(200, 250, 0.3%float); (100, 150, 0.5%float); (7, 9, nan)]
  = [].
Proof.
  apply (proj1 C5_nothing_above_gives_no_edge).
  repeat constructor.
Defined.

(** The whole of [identify_exon_edges] on a text of a header and three
    lines, with a [float] that knows the three scores of the text. *)
Example identify_exon_edges_on_text :
  let tab := String "009" EmptyString in
  let line a b c :=
    String.concat tab
      ["x"; "x"; "x"; a; b; "x"; "x"; "x"; "x"; "x"; "x"; "x"; "x"; "x"; c]%string in
  let float_of_string s :=
    if String.eqb s "1.0" then Some 1.0%float
    else if String.eqb s "2.0" then Some 2.0%float
    else if String.eqb s "0.3" then Some 0.3%float
    else None in
  Genomic_Analysis_Tool.identify_exon_edges float_of_string "chr1:1-2_+"
    (String.concat newline
       ["header"%string; line "150" "200" "2.0"; line "100" "150" "1.0";
        line "200" "250" "0.3"; ""%string])%string
  = ret [(100, Some 200)]
  /\ Genomic_Analysis_Tool.identify_exon_edges float_of_string "chr1:1-2_+" ""
     = ret []
  /\ Genomic_Analysis_Tool.identify_exon_edges float_of_string "chr1:1-2_+"
       (String.concat newline ["header"; "too	short"])%string
     = raise IndexError.
Proof. repeat split. Qed.

(** C10. The coordinate argument of [identify_exon_edges] is never read:
    two calls on the same junction text agree whatever coordinates they
    are given, in both files that define the function. *)
Theorem C10_coordinate_is_not_read
    (float_of_string : string -> option float) (c1 c2 d : string) :
  Genomic_Analysis_Tool.identify_exon_edges float_of_string c1 d
  = Genomic_Analysis_Tool.identify_exon_edges float_of_string c2 d
  /\ Genomic_Anlysis_Tool_V2.identify_exon_edges float_of_string c1 d
     = Genomic_Anlysis_Tool_V2.identify_exon_edges float_of_string c2 d.
Proof.
  split; reflexivity.
Qed.

(** ** Strings and the matcher *)

Section StringFacts.

Open Scope string_scope.

Lemma append_assoc (a b c : string) : (a ++ b) ++ c = a ++ b ++ c.
Proof.
  induction a as [|x a IH]; simpl; [reflexivity | now rewrite IH].
Qed.

Lemma append_empty_r (a : string) : a ++ "" = a.
Proof.
  induction a as [|x a IH]; simpl; [reflexivity | now rewrite IH].
Qed.

Lemma length_append (a b : string) :
  String.length (a ++ b) = (String.length a + String.length b)%nat.
Proof.
  induction a as [|x a IH]; simpl; [reflexivity | now rewrite IH].
Qed.

Lemma substring_prefix (b c : string) :
  substring 0 (String.length b) (b ++ c) = b.
Proof.
  induction b as [|x b IH]; simpl.
  - destruct c; reflexivity.
  - now rewrite IH.
Qed.

Lemma substring_middle (a b c : string) (n m : nat) :
  n = String.length a -> m = String.length b ->
  substring n m (a ++ b ++ c) = b.
Proof.
  intros -> ->. induction a as [|x a IH]; simpl.
  - apply substring_prefix.
  - exact IH.
Qed.

Lemma one_or_more_cons (p : ascii -> bool) (s : string) :
  one_or_more p s = true ->
  exists c s', s = String c s' /\ p c = true /\ string_forall p s' = true.
Proof.
  destruct s as [|c s']; [discriminate|].
  unfold one_or_more. simpl. intros H. apply andb_prop in H.
  exists c, s'. tauto.
Qed.

End StringFacts.

Section MatcherFacts.

Open Scope string_scope.

Variable R : Type.

Lemma greedy_takes_all (p : ascii -> bool) (k : nat -> string -> option R)
    (ds rest : string) (pos : nat) (r : R) :
  string_forall p ds = true -> stops p rest = true ->
  k (pos + String.length ds)%nat rest = Some r ->
  Re.greedy R p k pos (ds ++ rest) = Some r.
Proof.
  revert pos. induction ds as [|c ds IH]; simpl; intros pos Hd Hs Hk.
  - rewrite Nat.add_0_r in Hk.
    destruct rest as [|c rest]; simpl; [exact Hk|].
    simpl in Hs. apply negb_true_iff in Hs. now rewrite Hs.
  - apply andb_prop in Hd. destruct Hd as [Hc Hd]. rewrite Hc.
    rewrite (IH (S pos)); [reflexivity | exact Hd | exact Hs |].
    now rewrite <- Nat.add_succ_comm in Hk.
Qed.

Lemma greedy_inv (p : ascii -> bool) (k : nat -> string -> option R)
    (s : string) (pos : nat) (r : R) :
  Re.greedy R p k pos s = Some r ->
  exists ds rest, s = ds ++ rest /\ string_forall p ds = true
                  /\ k (pos + String.length ds)%nat rest = Some r.
Proof.
  revert pos. induction s as [|c s IH]; simpl; intros pos H.
  - exists "", "". rewrite Nat.add_0_r. auto.
  - assert (Stop : k pos (String c s) = Some r ->
             exists ds rest, String c s = ds ++ rest
               /\ string_forall p ds = true
               /\ k (pos + String.length ds)%nat rest = Some r).
    { intros Hk. exists "", (String c s). rewrite Nat.add_0_r. auto. }
    destruct (p c) eqn:Hc; [|now apply Stop].
    destruct (Re.greedy R p k (S pos) s) as [r'|] eqn:G; [|now apply Stop].
    injection H as ->.
    destruct (IH _ G) as (ds & rest & -> & Hd & Hk).
    exists (String c ds), rest. simpl. rewrite Hc, Hd.
    rewrite <- Nat.add_succ_comm. auto.
Qed.

Lemma run_Lit (c : ascii) (pos : nat) (s : string) (gs : Re.spans)
    (k : nat -> string -> Re.spans -> option R) :
  Re.run R (Re.Lit c) pos (String c s) gs k = k (S pos) s gs.
Proof.
  simpl. now rewrite Ascii.eqb_refl.
Qed.

Lemma run_Lit_inv (c : ascii) (pos : nat) (s : string) (gs : Re.spans)
    (k : nat -> string -> Re.spans -> option R) (r : R) :
  Re.run R (Re.Lit c) pos s gs k = Some r ->
  exists s', s = String c s' /\ k (S pos) s' gs = Some r.
Proof.
  simpl. destruct s as [|d s]; [discriminate|].
  destruct (Ascii.eqb d c) eqn:E; [|discriminate].
  apply Ascii.eqb_eq in E. subst d. intros H. now exists s.
Qed.

Lemma run_PlusClass (p : ascii -> bool) (pos : nat) (ds rest : string)
    (gs : Re.spans) (k : nat -> string -> Re.spans -> option R) (r : R) :
  one_or_more p ds = true -> stops p rest = true ->
  k (pos + String.length ds)%nat rest gs = Some r ->
  Re.run R (Re.PlusClass p) pos (ds ++ rest) gs k = Some r.
Proof.
  intros Hd Hs Hk.
  destruct (one_or_more_cons p ds Hd) as (c & ds' & -> & Hc & Hd').
  simpl. rewrite Hc.
  apply greedy_takes_all; [exact Hd' | exact Hs |].
  replace (S pos + String.length ds')%nat
    with (pos + String.length (String c ds'))%nat by (simpl; lia).
  exact Hk.
Qed.

Lemma run_PlusClass_inv (p : ascii -> bool) (pos : nat) (s : string)
    (gs : Re.spans) (k : nat -> string -> Re.spans -> option R) (r : R) :
  Re.run R (Re.PlusClass p) pos s gs k = Some r ->
  exists ds rest, s = ds ++ rest /\ one_or_more p ds = true
                  /\ k (pos + String.length ds)%nat rest gs = Some r.
Proof.
  simpl. destruct s as [|c s]; [discriminate|].
  destruct (p c) eqn:Hc; [|discriminate].
  intros H. apply greedy_inv in H. destruct H as (ds & rest & -> & Hd & Hk).
  exists (String c ds), rest. unfold one_or_more. simpl. rewrite Hc, Hd.
  replace (pos + S (String.length ds))%nat
    with (S pos + String.length ds)%nat by lia.
  auto.
Qed.

End MatcherFacts.

(** ** The conversion of digit strings *)

Section IntFacts.

Open Scope string_scope.

Lemma digit_value_range (c : ascii) :
  PyStr.is_digit c = true -> 0 <= PyStr.digit_value c <= 9.
Proof.
  unfold PyStr.is_digit, PyStr.between, PyStr.digit_value. intros H.
  apply andb_prop in H. destruct H as [H1 H2].
  apply Nat.leb_le in H1, H2. lia.
Qed.

Lemma digit_not_int_space (c : ascii) :
  PyStr.is_digit c = true -> PyStr.is_int_space c = false.
Proof.
  unfold PyStr.is_digit, PyStr.is_int_space, PyStr.between. intros H.
  apply andb_prop in H. destruct H as [H1 H2]. apply Nat.leb_le in H1, H2.
  repeat (apply orb_false_intro);
    try (apply andb_false_iff; right; apply Nat.leb_gt; lia);
    apply Nat.eqb_neq; lia.
Qed.

Lemma decimal_from_nonneg (s : string) (acc : Z) :
  string_forall PyStr.is_digit s = true -> 0 <= acc -> 0 <= decimal_from acc s.
Proof.
  revert acc.
  induction s as [|c s IH]; cbn [decimal_from string_forall];
    intros acc H Hacc; [exact Hacc|].
  apply andb_prop in H. destruct H as [Hc Hs].
  apply IH; [exact Hs|]. pose proof (digit_value_range c Hc). lia.
Qed.

Lemma int_digits_decimal (s : string) (acc : Z) (after_digit : bool) :
  string_forall PyStr.is_digit s = true ->
  after_digit = true \/ s <> "" ->
  PyStr.int_digits acc after_digit s = Some (decimal_from acc s).
Proof.
  revert acc after_digit.
  induction s as [|c s IH];
    cbn [decimal_from string_forall PyStr.int_digits]; intros acc b H Hb.
  - destruct Hb as [-> | Hb]; [reflexivity | now elim Hb].
  - apply andb_prop in H. destruct H as [Hc Hs]. rewrite Hc.
    apply IH; auto.
Qed.

Lemma rstrip_by_outside (p : ascii -> bool) (s : string) :
  string_forall (fun c => negb (p c)) s = true -> PyStr.rstrip_by p s = s.
Proof.
  induction s as [|c s IH]; simpl; intros H; [reflexivity|].
  apply andb_prop in H. destruct H as [Hc Hs]. rewrite (IH Hs).
  apply negb_true_iff in Hc. now rewrite Hc.
Qed.

Lemma string_forall_impl (p q : ascii -> bool) (s : string) :
  (forall c, p c = true -> q c = true) ->
  string_forall p s = true -> string_forall q s = true.
Proof.
  intros Hpq. induction s as [|c s IH]; simpl; intros H; [reflexivity|].
  apply andb_prop in H. destruct H as [Hc Hs].
  now rewrite (Hpq c Hc), (IH Hs).
Qed.

Lemma int_of_string_unsigned (s : string) (c : ascii) (s' : string) :
  PyStr.rstrip_by PyStr.is_int_space (PyStr.lstrip_by PyStr.is_int_space s)
  = String c s' ->
  PyStr.is_digit c = true ->
  PyStr.int_of_string s = PyStr.int_unsigned (String c s').
Proof.
  unfold PyStr.int_of_string. intros ->.
  destruct c as [[] [] [] [] [] [] [] []]; try discriminate; reflexivity.
Qed.

Lemma digit_count_digits (s : string) :
  string_forall PyStr.is_digit s = true ->
  PyStr.digit_count s = String.length s.
Proof.
  induction s as [|c s IH]; cbn [string_forall PyStr.digit_count String.length];
    intros H; [reflexivity|].
  apply andb_prop in H. destruct H as [Hc Hs]. now rewrite Hc, (IH Hs).
Qed.

(** A run of digits reaches the conversion as it is: no blank to strip,
    no sign. *)
Lemma int_of_string_digits (ds : string) :
  one_or_more PyStr.is_digit ds = true ->
  PyStr.int_of_string ds
  = if Nat.ltb PyStr.int_max_str_digits (String.length ds) then None
    else Some (decimal_value ds).
Proof.
  intros H. destruct (one_or_more_cons _ _ H) as (c & s & -> & Hc & Hs).
  assert (Hall : string_forall PyStr.is_digit (String c s) = true)
    by (cbn [string_forall]; now rewrite Hc, Hs).
  rewrite (int_of_string_unsigned (String c s) c s).
  - unfold PyStr.int_unsigned. rewrite (digit_count_digits _ Hall).
    destruct (Nat.ltb PyStr.int_max_str_digits (String.length (String c s)));
      [reflexivity|].
    apply int_digits_decimal; [exact Hall | right; discriminate].
  - cbn [PyStr.lstrip_by]. rewrite (digit_not_int_space c Hc).
    apply rstrip_by_outside. cbn [string_forall].
    rewrite (digit_not_int_space c Hc). cbn [negb andb].
    apply string_forall_impl with (p := PyStr.is_digit); [|exact Hs].
    intros d Hd. now rewrite (digit_not_int_space d Hd).
  - exact Hc.
Qed.

Lemma within_cap_ltb (ds : string) :
  within_cap ds ->
  Nat.ltb PyStr.int_max_str_digits (String.length ds) = false.
Proof.
  unfold within_cap. intros H. apply Nat.leb_le in H. apply Nat.ltb_ge.
  exact H.
Qed.

(** On a run of digits within the limit [int] cannot raise, and it
    returns the base-10 value. *)
Lemma int_of_digit_string (ds : string) :
  one_or_more PyStr.is_digit ds = true -> within_cap ds ->
  PyStr.int ds = ret (decimal_value ds).
Proof.
  intros H Hcap. unfold PyStr.int.
  now rewrite (int_of_string_digits ds H), (within_cap_ltb ds Hcap).
Qed.

(** On a run of digits [int] returns the base-10 value or raises
    [ValueError]; it raises exactly beyond the limit. *)
Lemma int_of_any_digit_string (ds : string) :
  one_or_more PyStr.is_digit ds = true ->
  (within_cap ds /\ PyStr.int ds = ret (decimal_value ds))
  \/ (~ within_cap ds /\ PyStr.int ds = raise ValueError).
Proof.
  intros H. unfold PyStr.int, within_cap.
  rewrite (int_of_string_digits ds H).
  destruct (Nat.ltb PyStr.int_max_str_digits (String.length ds)) eqn:E.
  - right. split; [|reflexivity]. apply Nat.ltb_lt in E.
    intros Hle. apply Nat.leb_le in Hle.
    exact (Nat.lt_irrefl _ (Nat.le_lt_trans _ _ _ Hle E)).
  - left. split; [|reflexivity]. apply Nat.ltb_ge in E.
    now apply Nat.leb_le.
Qed.

Lemma decimal_value_nonneg (ds : string) :
  one_or_more PyStr.is_digit ds = true -> 0 <= decimal_value ds.
Proof.
  unfold one_or_more. intros H. apply andb_prop in H.
  apply decimal_from_nonneg; [tauto | lia].
Qed.

End IntFacts.

(** ** The coordinate pattern *)

Section CoordinateFacts.

Open Scope string_scope.

Lemma groups_of_locus_spans (d1 d2 d3 tok rest : string) :
  let m := Re.mkMatch (locus_text d1 d2 d3 (tok ++ rest))
             (locus_spans d1 d2 d3 tok) in
  Re.group m 1 = "chr" ++ d1 /\ Re.group m 2 = d2
  /\ Re.group m 3 = d3 /\ Re.group m 4 = tok.
Proof.
  unfold Re.group, locus_spans, locus_text. cbn [Re.span_of Re.group_spans
    Re.subject Nat.eqb].
  repeat split.
  - replace ("chr" ++ d1 ++ ":" ++ d2 ++ "-" ++ d3 ++ "_" ++ tok ++ rest)
      with ("" ++ ("chr" ++ d1) ++ ":" ++ d2 ++ "-" ++ d3 ++ "_" ++ tok ++ rest)
      by (rewrite !append_assoc; reflexivity).
    apply substring_middle; rewrite ?length_append; simpl; lia.
  - replace ("chr" ++ d1 ++ ":" ++ d2 ++ "-" ++ d3 ++ "_" ++ tok ++ rest)
      with (("chr" ++ d1 ++ ":") ++ d2 ++ "-" ++ d3 ++ "_" ++ tok ++ rest)
      by (rewrite !append_assoc; reflexivity).
    apply substring_middle; rewrite ?length_append; simpl; lia.
  - replace ("chr" ++ d1 ++ ":" ++ d2 ++ "-" ++ d3 ++ "_" ++ tok ++ rest)
      with (("chr" ++ d1 ++ ":" ++ d2 ++ "-") ++ d3 ++ "_" ++ tok ++ rest)
      by (rewrite !append_assoc; reflexivity).
    apply substring_middle; rewrite ?length_append; simpl; lia.
  - replace ("chr" ++ d1 ++ ":" ++ d2 ++ "-" ++ d3 ++ "_" ++ tok ++ rest)
      with (("chr" ++ d1 ++ ":" ++ d2 ++ "-" ++ d3 ++ "_") ++ tok ++ rest)
      by (rewrite !append_assoc; reflexivity).
    apply substring_middle; rewrite ?length_append; simpl; lia.
Qed.

Lemma run_Cat R (r1 r2 : Re.regex) pos s gs k :
  Re.run R (Re.Cat r1 r2) pos s gs k
  = Re.run R r1 pos s gs (fun pos' s' gs' => Re.run R r2 pos' s' gs' k).
Proof. reflexivity. Qed.

Lemma run_Group R (n : nat) (r : Re.regex) pos s gs k :
  Re.run R (Re.Group n r) pos s gs k
  = Re.run R r pos s gs (fun pos' s' gs' => k pos' s' ((n, (pos, pos')) :: gs')).
Proof. reflexivity. Qed.

Lemma run_Bol R s gs k : Re.run R Re.Bol 0 s gs k = k 0%nat s gs.
Proof. reflexivity. Qed.

Lemma run_Eol R pos s gs k :
  Re.run R Re.Eol pos s gs k = if Re.at_eol s then k pos s gs else None.
Proof. reflexivity. Qed.

Lemma at_eol_cases (s : string) :
  Re.at_eol s = true -> s = "" \/ s = newline.
Proof.
  destruct s as [|c [|d s]]; simpl; intros H; auto; [|discriminate].
  apply Ascii.eqb_eq in H. subst c. now right.
Qed.

(** The matcher accepts the described text, alone or before one final
    newline, with the groups on the four parts. *)
Lemma re_match_locus_text (d1 d2 d3 tok rest : string) :
  digits d1 -> digits d2 -> digits d3 -> token tok ->
  rest = "" \/ rest = newline ->
  Re.re_match coordinate_re (locus_text d1 d2 d3 (tok ++ rest))
  = Some (Re.mkMatch (locus_text d1 d2 d3 (tok ++ rest))
            (locus_spans d1 d2 d3 tok)).
Proof.
  intros H1 H2 H3 H4 Hrest.
  unfold Re.re_match, coordinate_re.
  set (k := fun (_ : nat) (_ : string) gs =>
              Some (Re.mkMatch (locus_text d1 d2 d3 (tok ++ rest)) gs)).
  unfold locus_text. cbn [append].
  rewrite run_Cat, run_Bol. cbv beta.
  rewrite run_Cat, run_Group, run_Cat, run_Lit. cbv beta.
  rewrite run_Cat, run_Lit. cbv beta.
  rewrite run_Cat, run_Lit. cbv beta.
  apply run_PlusClass; [exact H1 | reflexivity |]. cbv beta.
  rewrite run_Cat, run_Lit. cbv beta.
  rewrite run_Cat, run_Group.
  apply run_PlusClass; [exact H2 | reflexivity |]. cbv beta.
  rewrite run_Cat, run_Lit. cbv beta.
  rewrite run_Cat, run_Group.
  apply run_PlusClass; [exact H3 | reflexivity |]. cbv beta.
  rewrite run_Cat, run_Lit. cbv beta.
  rewrite run_Cat, run_Group.
  apply run_PlusClass;
    [exact H4 | destruct Hrest as [-> | ->]; reflexivity |]. cbv beta.
  rewrite run_Eol.
  replace (Re.at_eol rest) with true by (destruct Hrest as [-> | ->]; reflexivity).
  unfold k, locus_spans. cbv zeta. repeat f_equal; lia.
Qed.

(** Whatever the matcher accepts is the described text, alone or before
    one final newline, and the groups are its four parts. *)
Lemma re_match_coordinate_inv (s : string) (m : Re.match_object) :
  Re.re_match coordinate_re s = Some m ->
  exists d1 d2 d3 tok rest,
    digits d1 /\ digits d2 /\ digits d3 /\ token tok
    /\ (rest = "" \/ rest = newline)
    /\ s = locus_text d1 d2 d3 (tok ++ rest)
    /\ m = Re.mkMatch s (locus_spans d1 d2 d3 tok).
Proof.
  unfold Re.re_match, coordinate_re. intros H.
  set (k := fun (_ : nat) (_ : string) gs => Some (Re.mkMatch s gs)) in H.
  rewrite run_Cat, run_Bol in H. cbv beta in H.
  rewrite run_Cat, run_Group, run_Cat in H.
  apply run_Lit_inv in H. destruct H as (s1 & E1 & H). cbv beta in H.
  rewrite run_Cat in H.
  apply run_Lit_inv in H. destruct H as (s2 & E2 & H). cbv beta in H.
  rewrite run_Cat in H.
  apply run_Lit_inv in H. destruct H as (s3 & E3 & H). cbv beta in H.
  apply run_PlusClass_inv in H. destruct H as (d1 & r1 & E4 & D1 & H).
  cbv beta in H. rewrite run_Cat in H.
  apply run_Lit_inv in H. destruct H as (s4 & E5 & H). cbv beta in H.
  rewrite run_Cat, run_Group in H.
  apply run_PlusClass_inv in H. destruct H as (d2 & r2 & E6 & D2 & H).
  cbv beta in H. rewrite run_Cat in H.
  apply run_Lit_inv in H. destruct H as (s5 & E7 & H). cbv beta in H.
  rewrite run_Cat, run_Group in H.
  apply run_PlusClass_inv in H. destruct H as (d3 & r3 & E8 & D3 & H).
  cbv beta in H. rewrite run_Cat in H.
  apply run_Lit_inv in H. destruct H as (s6 & E9 & H). cbv beta in H.
  rewrite run_Cat, run_Group in H.
  apply run_PlusClass_inv in H. destruct H as (tok & rest & E10 & T & H).
  cbv beta in H. rewrite run_Eol in H.
  destruct (Re.at_eol rest) eqn:Eeol; [|discriminate].
  unfold k in H. injection H as <-.
  exists d1, d2, d3, tok, rest.
  repeat (split; [assumption|]).
  split; [now apply at_eol_cases|].
  split.
  - unfold locus_text. cbn [append]. congruence.
  - unfold locus_spans. cbv zeta. repeat f_equal; lia.
Qed.

End CoordinateFacts.

(** ** Claims on the coordinate parser *)

Section ParserClaims.

Open Scope string_scope.

Lemma bind_ret_l {A B} (a : A) (f : A -> py B) : bind (ret a) f = f a.
Proof.
  unfold bind, ret. destruct (f a). reflexivity.
Qed.

(** What the three parsers do with a match object, before each wraps the
    tuple its own way. *)
(** The conversions the three parsers make on a match object, written on
    the four parts of the text. *)
Lemma groups_in_conversions (d1 d2 d3 tok rest : string) {B}
    (f : locus -> py B) :
  let m := Re.mkMatch (locus_text d1 d2 d3 (tok ++ rest))
             (locus_spans d1 d2 d3 tok) in
  (start' <- PyStr.int (Re.group m 2) ;;
   end' <- PyStr.int (Re.group m 3) ;;
   f (Re.group m 1, start', end', Re.group m 4))%py
  = (start' <- PyStr.int d2 ;;
     end' <- PyStr.int d3 ;;
     f ("chr" ++ d1, start', end', tok))%py.
Proof.
  intros m.
  destruct (groups_of_locus_spans d1 d2 d3 tok rest) as (G1 & G2 & G3 & G4).
  fold m in G1, G2, G3, G4. now rewrite G1, G2, G3, G4.
Qed.

Lemma conversions_on_locus (d1 d2 d3 tok rest : string) {B}
    (f : locus -> py B) :
  digits d2 -> digits d3 -> within_cap d2 -> within_cap d3 ->
  let m := Re.mkMatch (locus_text d1 d2 d3 (tok ++ rest))
             (locus_spans d1 d2 d3 tok) in
  (start' <- PyStr.int (Re.group m 2) ;;
   end' <- PyStr.int (Re.group m 3) ;;
   f (Re.group m 1, start', end', Re.group m 4))%py
  = f ("chr" ++ d1, decimal_value d2, decimal_value d3, tok).
Proof.
  intros H2 H3 C2 C3 m. unfold m.
  rewrite (groups_in_conversions d1 d2 d3 tok rest f).
  rewrite (int_of_digit_string d2 H2 C2), bind_ret_l.
  rewrite (int_of_digit_string d3 H3 C3), bind_ret_l.
  reflexivity.
Qed.

(** The parse of a text of the described form, before the conversions
    are known to succeed. *)
Lemma parse_locus_text_conversions (d1 d2 d3 tok rest : string) :
  digits d1 -> digits d2 -> digits d3 -> token tok ->
  rest = "" \/ rest = newline ->
  Genomic_Analysis_Tool.parse_genomic_coordinate
    (locus_text d1 d2 d3 (tok ++ rest))
  = (start' <- PyStr.int d2 ;;
     end' <- PyStr.int d3 ;;
     ret ("chr" ++ d1, start', end', tok))%py.
Proof.
  intros H1 H2 H3 H4 Hr. unfold Genomic_Analysis_Tool.parse_genomic_coordinate.
  rewrite (re_match_locus_text d1 d2 d3 tok rest H1 H2 H3 H4 Hr). cbv zeta.
  exact (groups_in_conversions d1 d2 d3 tok rest ret).
Qed.

Lemma parse_locus_text (d1 d2 d3 tok rest : string) :
  digits d1 -> digits d2 -> digits d3 -> token tok ->
  within_cap d2 -> within_cap d3 ->
  rest = "" \/ rest = newline ->
  Genomic_Analysis_Tool.parse_genomic_coordinate
    (locus_text d1 d2 d3 (tok ++ rest))
  = ret ("chr" ++ d1, decimal_value d2, decimal_value d3, tok).
Proof.
  intros H1 H2 H3 H4 C2 C3 Hr.
  rewrite (parse_locus_text_conversions d1 d2 d3 tok rest H1 H2 H3 H4 Hr).
  rewrite (int_of_digit_string d2 H2 C2), bind_ret_l.
  rewrite (int_of_digit_string d3 H3 C3), bind_ret_l.
  reflexivity.
Qed.

Lemma locus_string_cases (d1 d2 d3 tok rest : string) :
  digits d1 -> digits d2 -> digits d3 -> token tok ->
  rest = "" \/ rest = newline ->
  let s := locus_text d1 d2 d3 (tok ++ rest) in
  locus_string s \/ exists t, s = t ++ newline /\ locus_string t.
Proof.
  intros H1 H2 H3 H4 [-> | ->]; cbv zeta.
  - left. exists d1, d2, d3, tok. now rewrite append_empty_r.
  - right. exists (locus_text d1 d2 d3 tok). split.
    + unfold locus_text. now rewrite !append_assoc.
    + now exists d1, d2, d3, tok.
Qed.

(** No match exactly when the string is not the described text, even with
    one final newline taken off. *)
Lemma re_match_none (s : string) :
  ~ locus_string s -> (forall t, s = t ++ newline -> ~ locus_string t) ->
  Re.re_match coordinate_re s = None.
Proof.
  intros Hs Ht. destruct (Re.re_match coordinate_re s) as [m|] eqn:E;
    [|reflexivity].
  destruct (re_match_coordinate_inv s m E)
    as (d1 & d2 & d3 & tok & rest & H1 & H2 & H3 & H4 & Hr & -> & _).
  destruct (locus_string_cases d1 d2 d3 tok rest H1 H2 H3 H4 Hr)
    as [H | (t & Et & H)].
  - now elim Hs.
  - now elim (Ht t Et).
Qed.

Lemma not_locus_string_b (s : string) : ~ locus_string (String "b" s).
Proof.
  intros (d1 & d2 & d3 & tok & _ & _ & _ & _ & E). discriminate E.
Qed.

(** C6, as the code has it. A string of the described form whose start
    and end have no more digits than [int] converts (4300, leading zeros
    counted) parses: the result is the sequence name, the two digit runs
    read in base 10, and the token; and ["chr18:79930227-79930311_+"] gives
    [("chr18", 79930227, 79930311, "+")]. *)
Theorem C6_parse_decodes_locus :
  (forall d1 d2 d3 tok,
     digits d1 -> digits d2 -> digits d3 -> token tok ->
     within_cap d2 -> within_cap d3 ->
     Genomic_Analysis_Tool.parse_genomic_coordinate (locus_text d1 d2 d3 tok)
     = ret ("chr" ++ d1, decimal_value d2, decimal_value d3, tok))
  /\ Genomic_Analysis_Tool.parse_genomic_coordinate "chr18:79930227-79930311_+"
     = ret ("chr18", 79930227, 79930311, "+").
Proof.
  split; [|reflexivity].
  intros d1 d2 d3 tok H1 H2 H3 H4 C2 C3.
  rewrite <- (append_empty_r tok) at 1.
  apply parse_locus_text; auto.
Qed.

Lemma C6_parse_decodes_locus_witness :
  Genomic_Analysis_Tool.parse_genomic_coordinate (locus_text "7" "0012" "9" "-x")
  = ret ("chr7", 12, 9, "-x").
Proof.
  apply (proj1 C6_parse_decodes_locus "7" "0012" "9" "-x"); reflexivity.
Defined.

Lemma length_repeat_char (c : ascii) (n : nat) :
  String.length (repeat_char c n) = n.
Proof.
  induction n as [|n IH]; cbn [repeat_char String.length];
    [reflexivity | now rewrite IH].
Qed.

Lemma string_forall_repeat_nine (n : nat) :
  string_forall PyStr.is_digit (repeat_char "9" n) = true.
Proof.
  induction n as [|n IH]; [reflexivity|].
  cbn [repeat_char string_forall]. rewrite IH. reflexivity.
Qed.

Lemma digits_repeat_nine (n : nat) : n <> O -> digits (repeat_char "9" n).
Proof.
  intros Hn. destruct n as [|n]; [now elim Hn|].
  unfold digits, one_or_more.
  rewrite string_forall_repeat_nine. reflexivity.
Qed.

(** C6, as the specification has it, fails: a start of 4301 digits is of
    the described form, and its parse raises [ValueError]. *)
Lemma C6_long_number_raises :
  digits "1" /\ digits (repeat_char "9" 4301) /\ token "+"
  /\ Genomic_Analysis_Tool.parse_genomic_coordinate
       (locus_text "1" (repeat_char "9" 4301) "1" "+")
     = raise ValueError.
Proof.
  assert (Hd : digits (repeat_char "9" 4301))
    by (apply digits_repeat_nine; discriminate).
  split; [reflexivity|]. split; [exact Hd|]. split; [reflexivity|].
  rewrite <- (append_empty_r "+") at 1.
  rewrite (parse_locus_text_conversions "1" (repeat_char "9" 4301) "1" "+" ""
             eq_refl Hd eq_refl eq_refl (or_introl eq_refl)).
  destruct (int_of_any_digit_string _ Hd) as [[C _] | [_ ->]]; [|reflexivity].
  unfold within_cap in C. rewrite length_repeat_char in C.
  vm_compute in C. discriminate C.
Qed.

(** C7, as the code has it. A string that is not of the described form,
    also after one final newline is taken off, yields no locus: the parser
    prints a fixed message and then leaves through [sys.exit(1)] in
    [Genomic_Analysis_Tool.py], or returns [None] in [Analysis_Plot.py]. *)
Theorem C7_mismatch_prints_then_exits_or_returns_None (s : string) :
  ~ locus_string s -> (forall t, s = t ++ newline -> ~ locus_string t) ->
  Genomic_Analysis_Tool.parse_genomic_coordinate s
  = ([Print invalid_format], SysExit 1)
  /\ Analysis_Plot.parse_genomic_coordinate s
     = ([Print invalid_format], Returns None).
Proof.
  intros Hs Ht.
  unfold Genomic_Analysis_Tool.parse_genomic_coordinate,
    Analysis_Plot.parse_genomic_coordinate.
  rewrite (re_match_none s Hs Ht). split; reflexivity.
Qed.

Lemma C7_mismatch_prints_then_exits_or_returns_None_witness :
  Genomic_Analysis_Tool.parse_genomic_coordinate "badstring"
  = ([Print invalid_format], SysExit 1)
  /\ Analysis_Plot.parse_genomic_coordinate "badstring"
     = ([Print invalid_format], Returns None).
Proof.
  apply (C7_mismatch_prints_then_exits_or_returns_None "badstring").
  - apply not_locus_string_b.
  - intros t Et (d1 & d2 & d3 & tok & _ & _ & _ & _ & E). subst t.
    discriminate Et.
Defined.

(** C7, as the specification has it, fails: the parses of ["badstring"]
    and of ["bad"] produce the same events and the same outcome, so nothing
    that is produced carries the input; and the outcome in
    [Genomic_Analysis_Tool.py] is the exit of the process. *)
Lemma C7_failure_does_not_carry_input :
  ~ failure_carries_input Genomic_Analysis_Tool.parse_genomic_coordinate
  /\ ~ failure_carries_input Analysis_Plot.parse_genomic_coordinate
  /\ snd (Genomic_Analysis_Tool.parse_genomic_coordinate "badstring")
     = SysExit 1.
Proof.
  split; [|split; [|reflexivity]].
  - intros (offending & H).
    pose proof (H "badstring" (not_locus_string_b _)) as E1.
    pose proof (H "bad" (not_locus_string_b _)) as E2.
    change (Genomic_Analysis_Tool.parse_genomic_coordinate "bad")
      with (Genomic_Analysis_Tool.parse_genomic_coordinate "badstring") in E2.
    rewrite E1 in E2. discriminate E2.
  - intros (offending & H).
    pose proof (H "badstring" (not_locus_string_b _)) as E1.
    pose proof (H "bad" (not_locus_string_b _)) as E2.
    change (Analysis_Plot.parse_genomic_coordinate "bad")
      with (Analysis_Plot.parse_genomic_coordinate "badstring") in E2.
    rewrite E1 in E2. discriminate E2.
Qed.

(** C8, as the code has it. A locus returned by the parser has a sequence
    name made of [chr] and digits, a start and an end that are not
    negative, and a token without blanks; the order of start and end is
    the order in which the two numbers were written. *)
Theorem C8_parsed_locus_fields (s : string) (out : list event)
    (chromosome : string) (start end_ : Z) (strand : string) :
  Genomic_Analysis_Tool.parse_genomic_coordinate s
  = (out, Returns (chromosome, start, end_, strand)) ->
  (exists d, digits d /\ chromosome = "chr" ++ d)
  /\ 0 <= start /\ 0 <= end_ /\ token strand.
Proof.
  unfold Genomic_Analysis_Tool.parse_genomic_coordinate.
  destruct (Re.re_match coordinate_re s) as [m|] eqn:E; [|discriminate].
  destruct (re_match_coordinate_inv s m E)
    as (d1 & d2 & d3 & tok & rest & H1 & H2 & H3 & H4 & Hr & -> & ->).
  cbv zeta. intros H.
  pose proof (eq_trans
                (eq_sym (groups_in_conversions d1 d2 d3 tok rest ret)) H)
    as K.
  destruct (int_of_any_digit_string d2 H2) as [[_ E2] | [_ E2]];
    rewrite E2 in K; [|discriminate K].
  rewrite bind_ret_l in K.
  destruct (int_of_any_digit_string d3 H3) as [[_ E3] | [_ E3]];
    rewrite E3 in K; [|discriminate K].
  rewrite bind_ret_l in K.
  injection K as _ <- <- <- <-.
  split; [now exists d1|].
  split; [now apply decimal_value_nonneg|].
  split; [now apply decimal_value_nonneg | exact H4].
Qed.

Lemma C8_parsed_locus_fields_witness :
  (exists d, digits d /\ "chr1" = "chr" ++ d) /\ 0 <= 5 /\ 0 <= 3 /\ token "+".
Proof.
  apply (C8_parsed_locus_fields "chr1:5-3_+" [] "chr1" 5 3 "+"). reflexivity.
Defined.

(** C8, as the specification has it, fails: the parser returns a locus
    whose start is after its end. *)
Lemma C8_start_after_end :
  Genomic_Analysis_Tool.parse_genomic_coordinate "chr1:5-3_+"
  = ret ("chr1", 5, 3, "+")
  /\ ~ 5 <= 3.
Proof.
  split; [reflexivity | lia].
Qed.

End ParserClaims.

(** ** Claims on the abundance *)

Section AbundanceClaims.

Open Scope string_scope.

Lemma fold_left_present {num} (of_int : Z -> num) (add : num -> num -> num)
    (values : list (option num)) (acc : num) :
  (forall x, add x (of_int 0) = x) ->
  fold_left add (Genomic_Analysis_Tool.filter_not_None num values) acc
  = fold_left add (map (value_or_zero of_int) values) acc.
Proof.
  intros Hzero. revert acc.
  induction values as [|[x|] values IH]; intros acc; simpl.
  - reflexivity.
  - apply IH.
  - rewrite Hzero. apply IH.
Qed.

(** C9. The abundance of a track is the sum of its values with the absent
    ones counted as zero, for numbers on which adding zero changes
    nothing; a track without values gives 0; [5, None, 3, None] gives 8;
    and [measure_transcription_abundance], on a coordinate whose start and
    end have no more digits than [int] converts and on one track whose
    reader returns [values], returns that abundance. *)
Theorem C9_abundance_sums_present_values :
  (forall (num : Type) (of_int : Z -> num) (add : num -> num -> num)
          (values : list (option num)),
     (forall x, add x (of_int 0) = x) ->
     Genomic_Analysis_Tool.track_abundance num of_int add values
     = fold_left add (map (value_or_zero of_int) values) (of_int 0))
  /\ (forall (num : Type) (of_int : Z -> num) (add : num -> num -> num),
        Genomic_Analysis_Tool.track_abundance num of_int add [] = of_int 0)
  /\ Genomic_Analysis_Tool.track_abundance Z id Z.add
       [Some 5; None; Some 3; None] = 8
  /\ (forall (num : Type) (of_int : Z -> num) (add : num -> num -> num)
             (bigwig : Type) (bw_open : string -> py (option bigwig))
             (bw_values : bigwig -> string -> Z -> Z -> py (list (option num)))
             (d1 d2 d3 tok bw_file : string) (bw : bigwig)
             (values : list (option num)),
        digits d1 -> digits d2 -> digits d3 -> token tok ->
        within_cap d2 -> within_cap d3 ->
        bw_open bw_file = ret (Some bw) ->
        bw_values bw ("chr" ++ d1) (decimal_value d2) (decimal_value d3)
        = ret values ->
        Genomic_Analysis_Tool.measure_transcription_abundance
          num of_int add bigwig bw_open bw_values
          (locus_text d1 d2 d3 tok) [bw_file]
        = ret [Genomic_Analysis_Tool.track_abundance num of_int add values]).
Proof.
  split; [|split; [|split]].
  - intros num of_int add values Hzero.
    unfold Genomic_Analysis_Tool.track_abundance, Genomic_Analysis_Tool.sum.
    destruct values as [|v values]; [reflexivity|].
    now apply fold_left_present.
  - reflexivity.
  - reflexivity.
  - intros num of_int add bigwig bw_open bw_values d1 d2 d3 tok bw_file bw
      values H1 H2 H3 H4 C2 C3 Hopen Hvalues.
    unfold Genomic_Analysis_Tool.measure_transcription_abundance.
    rewrite <- (append_empty_r tok) at 1.
    rewrite (parse_locus_text d1 d2 d3 tok "" H1 H2 H3 H4 C2 C3
               (or_introl eq_refl)).
    rewrite bind_ret_l. cbn [Genomic_Analysis_Tool.for_bigwig_files].
    rewrite Hopen, bind_ret_l, Hvalues, bind_ret_l. reflexivity.
Qed.

Lemma C9_abundance_sums_present_values_witness :
  Genomic_Analysis_Tool.track_abundance Z id Z.add [Some 5; None; Some 3; None]
  = fold_left Z.add (map (value_or_zero id) [Some 5; None; Some 3; None]) 0
  /\ Genomic_Analysis_Tool.measure_transcription_abundance
       Z id Z.add unit (fun _ => ret (Some tt))
       (fun _ _ _ _ => ret [Some 5; None; Some 3; None])
       (locus_text "18" "79930227" "79930311" "+") ["track.bw"]
     = ret [8].
Proof.
  split.
  - apply (proj1 C9_abundance_sums_present_values Z id Z.add).
    intros x. unfold id. lia.
  - apply (proj2 (proj2 (proj2 C9_abundance_sums_present_values))
             Z id Z.add unit (fun _ => ret (Some tt))
             (fun _ _ _ _ => ret [Some 5; None; Some 3; None])
             "18" "79930227" "79930311" "+" "track.bw" tt
             [Some 5; None; Some 3; None]);
      reflexivity.
Defined.

End AbundanceClaims.

(** * Further properties of the code *)

(** ** The parsers *)

Section ParserFacts.

Open Scope string_scope.

(** The three parsers on a string the pattern matches: the same two
    conversions, on the same four parts. *)
Lemma parsers_on_match (s : string) (m : Re.match_object) :
  Re.re_match coordinate_re s = Some m ->
  exists d1 d2 d3 tok rest,
    digits d1 /\ digits d2 /\ digits d3 /\ token tok
    /\ (rest = "" \/ rest = newline)
    /\ s = locus_text d1 d2 d3 (tok ++ rest)
    /\ Genomic_Analysis_Tool.parse_genomic_coordinate s
       = (start' <- PyStr.int d2 ;; end' <- PyStr.int d3 ;;
          ret ("chr" ++ d1, start', end', tok))%py
    /\ Genomic_Anlysis_Tool_V2.parse_genomic_coordinate s
       = (start' <- PyStr.int d2 ;; end' <- PyStr.int d3 ;;
          ret ("chr" ++ d1, start', end', tok))%py
    /\ Analysis_Plot.parse_genomic_coordinate s
       = (start' <- PyStr.int d2 ;; end' <- PyStr.int d3 ;;
          ret (Some ("chr" ++ d1, start', end', tok)))%py.
Proof.
  intros E.
  unfold Genomic_Analysis_Tool.parse_genomic_coordinate,
    Genomic_Anlysis_Tool_V2.parse_genomic_coordinate,
    Analysis_Plot.parse_genomic_coordinate.
  rewrite E.
  destruct (re_match_coordinate_inv s m E)
    as (d1 & d2 & d3 & tok & rest & H1 & H2 & H3 & H4 & Hr & -> & ->).
  exists d1, d2, d3, tok, rest. cbv zeta.
  repeat (split; [assumption|]). split; [reflexivity|].
  split; [|split].
  - exact (groups_in_conversions d1 d2 d3 tok rest ret).
  - exact (groups_in_conversions d1 d2 d3 tok rest ret).
  - exact (groups_in_conversions d1 d2 d3 tok rest (fun l => ret (Some l))).
Qed.

(** X1. The three parsers take the same decision on every string: either all
    return the same locus and print nothing, or each takes its own failure
    path, or all three raise [ValueError].  The last happens only on a
    string of the described form, alone or before one final newline, whose
    start or end has more digits than [int] converts. *)
Theorem parsers_agree (s : string) :
  (exists loc,
     Genomic_Analysis_Tool.parse_genomic_coordinate s = ret loc
     /\ Genomic_Anlysis_Tool_V2.parse_genomic_coordinate s = ret loc
     /\ Analysis_Plot.parse_genomic_coordinate s = ret (Some loc))
  \/ (Genomic_Analysis_Tool.parse_genomic_coordinate s
      = ([Print invalid_format], SysExit 1)
      /\ Genomic_Anlysis_Tool_V2.parse_genomic_coordinate s
         = ([ShowError "Error" invalid_format], SysExit 1)
      /\ Analysis_Plot.parse_genomic_coordinate s
         = ([Print invalid_format], Returns None))
  \/ ((exists d1 d2 d3 tok rest,
         digits d1 /\ digits d2 /\ digits d3 /\ token tok
         /\ (rest = "" \/ rest = newline)
         /\ s = locus_text d1 d2 d3 (tok ++ rest)
         /\ (~ within_cap d2 \/ ~ within_cap d3))
      /\ Genomic_Analysis_Tool.parse_genomic_coordinate s = raise ValueError
      /\ Genomic_Anlysis_Tool_V2.parse_genomic_coordinate s = raise ValueError
      /\ Analysis_Plot.parse_genomic_coordinate s = raise ValueError).
Proof.
  destruct (Re.re_match coordinate_re s) as [m|] eqn:E.
  - destruct (parsers_on_match s m E)
      as (d1 & d2 & d3 & tok & rest & H1 & H2 & H3 & H4 & Hr & Es
          & -> & -> & ->).
    destruct (int_of_any_digit_string d2 H2) as [[C2 E2] | [C2 E2]];
      rewrite E2.
    + rewrite !bind_ret_l.
      destruct (int_of_any_digit_string d3 H3) as [[C3 E3] | [C3 E3]];
        rewrite E3.
      * left. exists ("chr" ++ d1, decimal_value d2, decimal_value d3, tok).
        rewrite !bind_ret_l. repeat split.
      * right. right. split; [|repeat split].
        exists d1, d2, d3, tok, rest.
        repeat (split; [assumption|]). now right.
    + right. right. split; [|repeat split].
      exists d1, d2, d3, tok, rest.
      repeat (split; [assumption|]). now left.
  - right. left.
    unfold Genomic_Analysis_Tool.parse_genomic_coordinate,
      Genomic_Anlysis_Tool_V2.parse_genomic_coordinate,
      Analysis_Plot.parse_genomic_coordinate.
    rewrite E. repeat split.
Qed.

(** X2. One newline after a coordinate is accepted, and is not part of the
    strand: the parse is the one of the coordinate without it, and, when
    start and end have no more digits than [int] converts, it is the locus
    of the coordinate. *)
Theorem parse_accepts_final_newline (d1 d2 d3 tok : string) :
  digits d1 -> digits d2 -> digits d3 -> token tok ->
  (within_cap d2 -> within_cap d3 ->
   Genomic_Analysis_Tool.parse_genomic_coordinate
     (locus_text d1 d2 d3 tok ++ newline)
   = ret ("chr" ++ d1, decimal_value d2, decimal_value d3, tok))
  /\ Genomic_Analysis_Tool.parse_genomic_coordinate
       (locus_text d1 d2 d3 tok ++ newline)
     = Genomic_Analysis_Tool.parse_genomic_coordinate (locus_text d1 d2 d3 tok).
Proof.
  intros H1 H2 H3 H4.
  assert (E : locus_text d1 d2 d3 tok ++ newline
              = locus_text d1 d2 d3 (tok ++ newline)).
  { unfold locus_text. now rewrite !append_assoc. }
  rewrite E. split.
  - intros C2 C3.
    exact (parse_locus_text d1 d2 d3 tok newline H1 H2 H3 H4 C2 C3
             (or_intror eq_refl)).
  - rewrite (parse_locus_text_conversions d1 d2 d3 tok newline H1 H2 H3 H4
               (or_intror eq_refl)).
    replace (locus_text d1 d2 d3 tok) with (locus_text d1 d2 d3 (tok ++ ""))
      by now rewrite append_empty_r.
    now rewrite (parse_locus_text_conversions d1 d2 d3 tok "" H1 H2 H3 H4
                   (or_introl eq_refl)).
Qed.

Lemma parse_accepts_final_newline_witness :
  Genomic_Analysis_Tool.parse_genomic_coordinate
    (locus_text "18" "79930227" "79930311" "+" ++ newline)
  = ret ("chr18", 79930227, 79930311, "+").
Proof.
  apply (proj1 (parse_accepts_final_newline "18" "79930227" "79930311" "+"
                  eq_refl eq_refl eq_refl eq_refl) eq_refl eq_refl).
Defined.

End ParserFacts.

(** ** The request *)

Section RequestFacts.

Open Scope string_scope.

Variable requests_get : string -> py http_response.

Lemma parse_mismatch (s : string) :
  ~ locus_string s -> (forall t, s = t ++ newline -> ~ locus_string t) ->
  Genomic_Analysis_Tool.parse_genomic_coordinate s
  = ([Print invalid_format], SysExit 1).
Proof.
  intros Hs Ht. unfold Genomic_Analysis_Tool.parse_genomic_coordinate.
  now rewrite (re_match_none s Hs Ht).
Qed.

Lemma parse_plain (d1 d2 d3 tok : string) :
  digits d1 -> digits d2 -> digits d3 -> token tok ->
  within_cap d2 -> within_cap d3 ->
  Genomic_Analysis_Tool.parse_genomic_coordinate (locus_text d1 d2 d3 tok)
  = ret ("chr" ++ d1, decimal_value d2, decimal_value d3, tok).
Proof.
  intros H1 H2 H3 H4 C2 C3. rewrite <- (append_empty_r tok) at 1.
  apply parse_locus_text; auto.
Qed.

Lemma digits_leading_zero (d : string) : digits d -> digits ("0" ++ d).
Proof.
  unfold digits, one_or_more. intros H. apply andb_prop in H.
  destruct H as [_ H]. simpl. exact H.
Qed.

Lemma within_cap_tail (d : string) : within_cap ("0" ++ d) -> within_cap d.
Proof.
  unfold within_cap. cbn [append String.length]. intros H.
  apply Nat.leb_le in H. apply Nat.leb_le.
  exact (Nat.le_trans _ _ _ (Nat.le_succ_diag_r _) H).
Qed.

(** X3. For a coordinate of the described form whose start and end have
    no more digits than [int] converts, one request is made, to the URL
    built from the sequence name, the two numbers written back in decimal,
    the strand and the filter; status 200 returns the text of the response
    unchanged, any other status prints and exits with status 1. *)
Theorem retrieve_junction_data_by_status
    (d1 d2 d3 tok : string) (filter_condition : option string)
    (r : http_response) :
  digits d1 -> digits d2 -> digits d3 -> token tok ->
  within_cap d2 -> within_cap d3 ->
  requests_get
    (Genomic_Analysis_Tool_Main.snaptron_url ("chr" ++ d1) (decimal_value d2)
       (decimal_value d3) tok filter_condition)
  = ret r ->
  Genomic_Analysis_Tool_Main.retrieve_junction_data requests_get
    (locus_text d1 d2 d3 tok) filter_condition
  = if (status_code r =? 200)%Z then ret (text r)
    else ([Print failed_to_retrieve], SysExit 1).
Proof.
  intros H1 H2 H3 H4 C2 C3 Hget.
  unfold Genomic_Analysis_Tool_Main.retrieve_junction_data.
  rewrite (parse_plain d1 d2 d3 tok H1 H2 H3 H4 C2 C3), bind_ret_l. cbv zeta.
  rewrite Hget, bind_ret_l.
  destruct (status_code r =? 200)%Z; reflexivity.
Qed.

(** X4. A string that is not a coordinate ends the process before any request
    is made: the result is the same whatever [requests.get] would do. *)
Theorem retrieve_junction_data_mismatch
    (s : string) (filter_condition : option string) :
  ~ locus_string s -> (forall t, s = t ++ newline -> ~ locus_string t) ->
  Genomic_Analysis_Tool_Main.retrieve_junction_data requests_get s
    filter_condition
  = ([Print invalid_format], SysExit 1).
Proof.
  intros Hs Ht. unfold Genomic_Analysis_Tool_Main.retrieve_junction_data.
  now rewrite (parse_mismatch s Hs Ht).
Qed.

(** X5. The numbers are sent as parsed, not as typed: a zero written in front
    of the start and of the end changes nothing in what the function does,
    as long as the numbers with their zero have no more digits than [int]
    converts.  An empty filter is the same as no filter. *)
Theorem retrieve_junction_data_normalises
    (d1 d2 d3 tok : string) (filter_condition : option string) :
  digits d1 -> digits d2 -> digits d3 -> token tok ->
  (within_cap ("0" ++ d2) -> within_cap ("0" ++ d3) ->
   Genomic_Analysis_Tool_Main.retrieve_junction_data requests_get
     (locus_text d1 ("0" ++ d2) ("0" ++ d3) tok) filter_condition
   = Genomic_Analysis_Tool_Main.retrieve_junction_data requests_get
       (locus_text d1 d2 d3 tok) filter_condition)
  /\ Genomic_Analysis_Tool_Main.retrieve_junction_data requests_get
       (locus_text d1 d2 d3 tok) (Some "")
     = Genomic_Analysis_Tool_Main.retrieve_junction_data requests_get
         (locus_text d1 d2 d3 tok) None.
Proof.
  intros H1 H2 H3 H4. split; [|reflexivity].
  intros C2 C3.
  unfold Genomic_Analysis_Tool_Main.retrieve_junction_data.
  rewrite (parse_plain d1 d2 d3 tok H1 H2 H3 H4
             (within_cap_tail d2 C2) (within_cap_tail d3 C3)).
  rewrite (parse_plain d1 ("0" ++ d2) ("0" ++ d3) tok H1
             (digits_leading_zero d2 H2) (digits_leading_zero d3 H3) H4
             C2 C3).
  reflexivity.
Qed.

End RequestFacts.

Lemma retrieve_junction_data_by_status_witness :
  Genomic_Analysis_Tool_Main.retrieve_junction_data
    (fun _ => ret (mkResponse 200 "header"%string))
    (locus_text "1" "007" "9" "+") None
  = ret "header"%string
  /\ Genomic_Analysis_Tool_Main.retrieve_junction_data
       (fun _ => ret (mkResponse 404 "gone"%string))
       (locus_text "1" "007" "9" "+") None
     = ([Print failed_to_retrieve], SysExit 1).
Proof.
  split.
  - apply (retrieve_junction_data_by_status
             (fun _ => ret (mkResponse 200 "header"%string))
             "1" "007" "9" "+" None (mkResponse 200 "header"%string));
      reflexivity.
  - apply (retrieve_junction_data_by_status
             (fun _ => ret (mkResponse 404 "gone"%string))
             "1" "007" "9" "+" None (mkResponse 404 "gone"%string));
      reflexivity.
Defined.

Lemma retrieve_junction_data_mismatch_witness :
  Genomic_Analysis_Tool_Main.retrieve_junction_data
    (fun _ => ret (mkResponse 200 "header"%string)) "badstring" None
  = ([Print invalid_format], SysExit 1).
Proof.
  apply (retrieve_junction_data_mismatch
           (fun _ => ret (mkResponse 200 "header"%string)) "badstring" None).
  - apply not_locus_string_b.
  - intros t Et (d1 & d2 & d3 & tok & _ & _ & _ & _ & E). subst t.
    discriminate Et.
Defined.

Lemma retrieve_junction_data_normalises_witness :
  Genomic_Analysis_Tool_Main.retrieve_junction_data
    (fun url => ret (mkResponse 200 url))
    (locus_text "1" "07" "09" "+") (Some "samples_count>5"%string)
  = Genomic_Analysis_Tool_Main.retrieve_junction_data
      (fun url => ret (mkResponse 200 url))
      (locus_text "1" "7" "9" "+") (Some "samples_count>5"%string).
Proof.
  apply (proj1 (retrieve_junction_data_normalises
                  (fun url => ret (mkResponse 200 url)) "1" "7" "9" "+"
                  (Some "samples_count>5"%string)
                  eq_refl eq_refl eq_refl eq_refl) eq_refl eq_refl).
Defined.

Example retrieve_junction_data_url :
  Genomic_Analysis_Tool_Main.retrieve_junction_data
    (fun url => ret (mkResponse 200 url))
    "chr18:0079930227-79930311_+" (Some "samples_count>5"%string)
  = ret "https://snaptron.cs.jhu.edu/srav2/snaptron?regions=chr18:79930227-79930311&rfilter=strand:+&rfilter=samples_count>5"%string.
Proof. reflexivity. Qed.

(** ** The abundance of several tracks *)

Section MeasureFacts.

Open Scope string_scope.

Variable num : Type.
Variable of_int : Z -> num.
Variable add : num -> num -> num.
Variable bigwig : Type.
Variable bw_open : string -> py (option bigwig).
Variable bw_values : bigwig -> string -> Z -> Z -> py (list (option num)).

Local Abbreviation track_abundance :=
  (Genomic_Analysis_Tool.track_abundance num of_int add).
Local Abbreviation for_bigwig_files :=
  (Genomic_Analysis_Tool.for_bigwig_files
     num of_int add bigwig bw_open bw_values).
Local Abbreviation measure_transcription_abundance :=
  (Genomic_Analysis_Tool.measure_transcription_abundance
     num of_int add bigwig bw_open bw_values).

Lemma for_bigwig_files_all (chromosome : string) (start end_ : Z)
    (handle : string -> bigwig) (values : string -> list (option num))
    (files : list string) :
  Forall (reads bw_open bw_values chromosome start end_ handle values) files ->
  forall abundance,
    for_bigwig_files chromosome start end_ files abundance
    = ret (abundance ++ map (fun f => track_abundance (values f)) files)%list.
Proof.
  induction 1 as [|f files [Ho Hv] _ IH]; intros abundance.
  - simpl. now rewrite app_nil_r.
  - cbn [Genomic_Analysis_Tool.for_bigwig_files map].
    rewrite Ho, bind_ret_l, Hv, bind_ret_l, IH, <- app_assoc. reflexivity.
Qed.

Lemma for_bigwig_files_unopened (chromosome : string) (start end_ : Z)
    (handle : string -> bigwig) (values : string -> list (option num))
    (before : list string) (f : string) (after : list string) :
  Forall (reads bw_open bw_values chromosome start end_ handle values)
    before ->
  bw_open f = ret None ->
  forall abundance,
    for_bigwig_files chromosome start end_ (before ++ f :: after) abundance
    = ([Print ("Failed to open BigWig file: " ++ f)], SysExit 1).
Proof.
  induction 1 as [|g before [Ho Hv] _ IH]; intros Hf abundance.
  - cbn [app Genomic_Analysis_Tool.for_bigwig_files].
    rewrite Hf, bind_ret_l. reflexivity.
  - cbn [app Genomic_Analysis_Tool.for_bigwig_files].
    rewrite Ho, bind_ret_l, Hv, bind_ret_l. now apply IH.
Qed.

(** X6. On a coordinate whose start and end have no more digits than [int]
    converts, and with every file opening and reading, the result holds
    one abundance per file, in the order of the files. *)
Theorem measure_gives_one_abundance_per_file
    (d1 d2 d3 tok : string)
    (handle : string -> bigwig) (values : string -> list (option num))
    (files : list string) :
  digits d1 -> digits d2 -> digits d3 -> token tok ->
  within_cap d2 -> within_cap d3 ->
  Forall (reads bw_open bw_values ("chr" ++ d1) (decimal_value d2)
            (decimal_value d3) handle values) files ->
  measure_transcription_abundance (locus_text d1 d2 d3 tok) files
  = ret (map (fun f => track_abundance (values f)) files).
Proof.
  intros H1 H2 H3 H4 C2 C3 Hfiles.
  unfold Genomic_Analysis_Tool.measure_transcription_abundance.
  rewrite (parse_plain d1 d2 d3 tok H1 H2 H3 H4 C2 C3), bind_ret_l.
  exact (for_bigwig_files_all _ _ _ handle values files Hfiles []).
Qed.

(** X7. On a coordinate whose start and end have no more digits than [int]
    converts, the first file that does not open ends the process with
    status 1 after one message naming it: the abundances of the files
    before it are not returned, and the files after it play no part. *)
Theorem measure_exits_at_first_unopened_file
    (d1 d2 d3 tok : string)
    (handle : string -> bigwig) (values : string -> list (option num))
    (before : list string) (f : string) (after : list string) :
  digits d1 -> digits d2 -> digits d3 -> token tok ->
  within_cap d2 -> within_cap d3 ->
  Forall (reads bw_open bw_values ("chr" ++ d1) (decimal_value d2)
            (decimal_value d3) handle values) before ->
  bw_open f = ret None ->
  measure_transcription_abundance (locus_text d1 d2 d3 tok)
    (before ++ f :: after)
  = ([Print ("Failed to open BigWig file: " ++ f)], SysExit 1).
Proof.
  intros H1 H2 H3 H4 C2 C3 Hbefore Hf.
  unfold Genomic_Analysis_Tool.measure_transcription_abundance.
  rewrite (parse_plain d1 d2 d3 tok H1 H2 H3 H4 C2 C3), bind_ret_l.
  exact (for_bigwig_files_unopened _ _ _ handle values before f after
           Hbefore Hf []).
Qed.

(** X8. A string that is not a coordinate ends the process before any file is
    opened. *)
Theorem measure_mismatch (s : string) (files : list string) :
  ~ locus_string s -> (forall t, s = t ++ newline -> ~ locus_string t) ->
  measure_transcription_abundance s files
  = ([Print invalid_format], SysExit 1).
Proof.
  intros Hs Ht.
  unfold Genomic_Analysis_Tool.measure_transcription_abundance.
  now rewrite (parse_mismatch s Hs Ht).
Qed.

End MeasureFacts.

Lemma measure_gives_one_abundance_per_file_witness :
  Genomic_Analysis_Tool.measure_transcription_abundance Z id Z.add string
    (fun f => ret (Some f))
    (fun h _ _ _ => ret (if String.eqb h "a.bw" then [Some 5; None; Some 3]
                         else []))
    (locus_text "18" "79930227" "79930311" "+") ["a.bw"; "b.bw"]%string
  = ret [8; 0].
Proof.
  apply (measure_gives_one_abundance_per_file Z id Z.add string
           (fun f => ret (Some f))
           (fun h _ _ _ => ret (if String.eqb h "a.bw"
                                then [Some 5; None; Some 3] else []))
           "18" "79930227" "79930311" "+" (fun f => f)
           (fun f => if String.eqb f "a.bw" then [Some 5; None; Some 3] else [])
           ["a.bw"; "b.bw"]%string eq_refl eq_refl eq_refl eq_refl
           eq_refl eq_refl).
  repeat constructor.
Defined.

Lemma measure_exits_at_first_unopened_file_witness :
  Genomic_Analysis_Tool.measure_transcription_abundance Z id Z.add string
    (fun f => ret (if String.eqb f "missing.bw" then None else Some f))
    (fun _ _ _ _ => ret [Some 5])
    (locus_text "18" "79930227" "79930311" "+")
    ["a.bw"; "missing.bw"; "b.bw"]%string
  = ([Print "Failed to open BigWig file: missing.bw"], SysExit 1).
Proof.
  apply (measure_exits_at_first_unopened_file Z id Z.add string
           (fun f => ret (if String.eqb f "missing.bw" then None else Some f))
           (fun _ _ _ _ => ret [Some 5])
           "18" "79930227" "79930311" "+" (fun f => f) (fun _ => [Some 5])
           ["a.bw"%string] "missing.bw" ["b.bw"%string]
           eq_refl eq_refl eq_refl eq_refl eq_refl eq_refl).
  - repeat constructor.
  - reflexivity.
Defined.

Lemma measure_mismatch_witness :
  Genomic_Analysis_Tool.measure_transcription_abundance Z id Z.add unit
    (fun _ => ret (Some tt)) (fun _ _ _ _ => ret [Some 5])
    "badstring" ["a.bw"%string]
  = ([Print invalid_format], SysExit 1).
Proof.
  apply (measure_mismatch Z id Z.add unit (fun _ => ret (Some tt))
           (fun _ _ _ _ => ret [Some 5]) "badstring" ["a.bw"%string]).
  - apply not_locus_string_b.
  - intros t Et (d1 & d2 & d3 & tok & _ & _ & _ & _ & E). subst t.
    discriminate Et.
Defined.

Lemma fold_left_Zadd (l : list Z) (acc : Z) :
  fold_left Z.add l acc = acc + fold_right Z.add 0 l.
Proof.
  revert acc. induction l as [|x l IH]; intros acc; simpl.
  - lia.
  - rewrite IH. lia.
Qed.

Lemma track_abundance_Z_sum (values : list (option Z)) :
  Genomic_Analysis_Tool.track_abundance Z id Z.add values
  = fold_right Z.add 0 (Genomic_Analysis_Tool.filter_not_None Z values).
Proof.
  unfold Genomic_Analysis_Tool.track_abundance, Genomic_Analysis_Tool.sum, id.
  destruct values as [|v values]; [reflexivity|].
  now rewrite fold_left_Zadd.
Qed.

Lemma filter_not_None_perm (values values' : list (option Z)) :
  Permutation values values' ->
  Permutation (Genomic_Analysis_Tool.filter_not_None Z values)
    (Genomic_Analysis_Tool.filter_not_None Z values').
Proof.
  induction 1 as [| [x|] l l' _ IH | [x|] [y|] l | l l' l'' _ IH1 _ IH2];
    simpl; auto.
  - apply perm_swap.
  - eapply perm_trans; eassumption.
Qed.

(** X9. On integers the abundance of a track depends neither on the order of
    its entries nor on where the absent ones stand. *)
Theorem track_abundance_permutation (values values' : list (option Z)) :
  Permutation values values' ->
  Genomic_Analysis_Tool.track_abundance Z id Z.add values
  = Genomic_Analysis_Tool.track_abundance Z id Z.add values'.
Proof.
  intros H. rewrite !track_abundance_Z_sum.
  apply filter_not_None_perm in H.
  induction H; simpl; lia.
Qed.

Lemma track_abundance_permutation_witness :
  Genomic_Analysis_Tool.track_abundance Z id Z.add [None; Some 5; Some 3]
  = Genomic_Analysis_Tool.track_abundance Z id Z.add [Some 3; None; Some 5].
Proof.
  apply (track_abundance_permutation [None; Some 5; Some 3]
           [Some 3; None; Some 5]).
  apply perm_trans with [Some 5; None; Some 3].
  - apply perm_swap.
  - apply perm_trans with [Some 5; Some 3; None].
    + apply perm_skip, perm_swap.
    + apply perm_trans with [Some 3; Some 5; None].
      * apply perm_swap.
      * apply perm_skip, perm_swap.
Defined.

(** ** The command *)

Section CommandFacts.

Open Scope string_scope.

Variable float_of_string : string -> option float.
Variable num : Type.
Variable of_int : Z -> num.
Variable add : num -> num -> num.
Variable bigwig : Type.
Variable bw_open : string -> py (option bigwig).
Variable bw_values : bigwig -> string -> Z -> Z -> py (list (option num)).
Variable requests_get : string -> py http_response.
Variable str_of_num : num -> string.
Variable str_of_exn : exn -> string.

Local Abbreviation analyze_genomic_data :=
  (Genomic_Analysis_Tool_Main.analyze_genomic_data float_of_string
     num of_int add bigwig bw_open bw_values requests_get
     str_of_num str_of_exn).
Local Abbreviation report := (Genomic_Analysis_Tool_Main.report str_of_exn).

Lemma for_each_print {A} (line : A -> string) (xs : list A) :
  for_each xs (fun x => print (line x))
  = (map (fun x => Print (line x)) xs, Returns tt).
Proof.
  induction xs as [|x xs IH]; [reflexivity|].
  cbn [for_each map]. rewrite IH. reflexivity.
Qed.

Lemma try_except_report_never_raises (body : py unit) (e : exn) :
  snd (try_except_Exception body report) <> Raises e.
Proof.
  destruct body as [out [a|e'|n]]; simpl; discriminate.
Qed.

(** X10. Whatever the network, the files and the arguments do, the command
    never ends with an exception: it returns, or the process exits. *)
Theorem analyze_genomic_data_never_raises
    (genomic_coordinate analyze_option : string)
    (filter_condition : option string) (bigwig_file : string) (e : exn) :
  snd (analyze_genomic_data genomic_coordinate analyze_option
         filter_condition bigwig_file)
  <> Raises e.
Proof.
  unfold Genomic_Analysis_Tool_Main.analyze_genomic_data.
  destruct (String.eqb analyze_option "Exon Edge Finder");
    [apply try_except_report_never_raises|].
  destruct (String.eqb analyze_option "Genomic Abundance Analyzer");
    [apply try_except_report_never_raises | discriminate].
Qed.

(** X11. The handler does not see the exit of the parser: in both modes a
    string that is not a coordinate ends the process with status 1 after
    the one message of the parser, before any request or file access. *)
Theorem analyze_genomic_data_mismatch_exits
    (s : string) (filter_condition : option string) (bigwig_file : string) :
  ~ locus_string s -> (forall t, s = t ++ newline -> ~ locus_string t) ->
  analyze_genomic_data s "Exon Edge Finder" filter_condition bigwig_file
  = ([Print invalid_format], SysExit 1)
  /\ analyze_genomic_data s "Genomic Abundance Analyzer" filter_condition
       bigwig_file
     = ([Print invalid_format], SysExit 1).
Proof.
  intros Hs Ht.
  unfold Genomic_Analysis_Tool_Main.analyze_genomic_data,
    Genomic_Analysis_Tool_Main.retrieve_junction_data,
    Genomic_Analysis_Tool.measure_transcription_abundance.
  rewrite (parse_mismatch s Hs Ht). split; reflexivity.
Qed.

Lemma retrieve_ok (d1 d2 d3 tok : string) (filter_condition : option string)
    (r : http_response) :
  digits d1 -> digits d2 -> digits d3 -> token tok ->
  within_cap d2 -> within_cap d3 ->
  requests_get
    (Genomic_Analysis_Tool_Main.snaptron_url ("chr" ++ d1) (decimal_value d2)
       (decimal_value d3) tok filter_condition)
  = ret r ->
  status_code r = 200 ->
  Genomic_Analysis_Tool_Main.retrieve_junction_data requests_get
    (locus_text d1 d2 d3 tok) filter_condition
  = ret (text r).
Proof.
  intros H1 H2 H3 H4 C2 C3 Hget Hst.
  unfold Genomic_Analysis_Tool_Main.retrieve_junction_data.
  rewrite (parse_plain d1 d2 d3 tok H1 H2 H3 H4 C2 C3), bind_ret_l. cbv zeta.
  rewrite Hget, bind_ret_l, Hst. reflexivity.
Qed.

(** X12. In the exon mode, on a coordinate whose start and end have no more
    digits than [int] converts, when the request answers 200 and the text
    decodes, the command prints the heading and then one line per edge, in
    the order of the edges, and returns. *)
Theorem analyze_genomic_data_prints_edges
    (d1 d2 d3 tok : string) (filter_condition : option string)
    (bigwig_file : string) (r : http_response) (edges : list exon_edge) :
  digits d1 -> digits d2 -> digits d3 -> token tok ->
  within_cap d2 -> within_cap d3 ->
  requests_get
    (Genomic_Analysis_Tool_Main.snaptron_url ("chr" ++ d1) (decimal_value d2)
       (decimal_value d3) tok filter_condition)
  = ret r ->
  status_code r = 200 ->
  Genomic_Analysis_Tool.identify_exon_edges float_of_string
    (locus_text d1 d2 d3 tok) (text r)
  = ret edges ->
  analyze_genomic_data (locus_text d1 d2 d3 tok) "Exon Edge Finder"
    filter_condition bigwig_file
  = (Print "Exon Edges:"
       :: map (fun edge => Print (Genomic_Analysis_Tool_Main.edge_line edge))
            edges,
     Returns tt).
Proof.
  intros H1 H2 H3 H4 C2 C3 Hget Hst Hid.
  unfold Genomic_Analysis_Tool_Main.analyze_genomic_data.
  change (String.eqb "Exon Edge Finder" "Exon Edge Finder") with true.
  cbv iota.
  rewrite (retrieve_ok d1 d2 d3 tok filter_condition r H1 H2 H3 H4 C2 C3
             Hget Hst).
  rewrite bind_ret_l, Hid, bind_ret_l.
  rewrite (for_each_print Genomic_Analysis_Tool_Main.edge_line edges).
  reflexivity.
Qed.

(** X13. In the exon mode, on a coordinate whose start and end have no more
    digits than [int] converts, when the request answers 200 and decoding
    the text raises, the exception is caught: the command prints one line
    that reports it, prints no edge, and returns. *)
Theorem analyze_genomic_data_reports_bad_text
    (d1 d2 d3 tok : string) (filter_condition : option string)
    (bigwig_file : string) (r : http_response) (e : exn) :
  digits d1 -> digits d2 -> digits d3 -> token tok ->
  within_cap d2 -> within_cap d3 ->
  requests_get
    (Genomic_Analysis_Tool_Main.snaptron_url ("chr" ++ d1) (decimal_value d2)
       (decimal_value d3) tok filter_condition)
  = ret r ->
  status_code r = 200 ->
  Genomic_Analysis_Tool.identify_exon_edges float_of_string
    (locus_text d1 d2 d3 tok) (text r)
  = raise e ->
  analyze_genomic_data (locus_text d1 d2 d3 tok) "Exon Edge Finder"
    filter_condition bigwig_file
  = ([Print ("An error occurred: " ++ str_of_exn e)], Returns tt).
Proof.
  intros H1 H2 H3 H4 C2 C3 Hget Hst Hid.
  unfold Genomic_Analysis_Tool_Main.analyze_genomic_data.
  change (String.eqb "Exon Edge Finder" "Exon Edge Finder") with true.
  cbv iota.
  rewrite (retrieve_ok d1 d2 d3 tok filter_condition r H1 H2 H3 H4 C2 C3
             Hget Hst).
  rewrite bind_ret_l, Hid. reflexivity.
Qed.

(** X14. In the abundance mode, on a coordinate whose start and end have no
    more digits than [int] converts, when the file opens and reads, the
    command prints the abundance of that one track after the name of the
    file, and returns. *)
Theorem analyze_genomic_data_prints_abundance
    (d1 d2 d3 tok : string) (filter_condition : option string)
    (bigwig_file : string) (bw : bigwig) (values : list (option num)) :
  digits d1 -> digits d2 -> digits d3 -> token tok ->
  within_cap d2 -> within_cap d3 ->
  bw_open bigwig_file = ret (Some bw) ->
  bw_values bw ("chr" ++ d1) (decimal_value d2) (decimal_value d3)
  = ret values ->
  analyze_genomic_data (locus_text d1 d2 d3 tok) "Genomic Abundance Analyzer"
    filter_condition bigwig_file
  = ([Print ("Transcription Abundance:" ++ newline ++ bigwig_file ++ ": "
             ++ str_of_num
                  (Genomic_Analysis_Tool.track_abundance num of_int add values))],
     Returns tt).
Proof.
  intros H1 H2 H3 H4 C2 C3 Ho Hv.
  unfold Genomic_Analysis_Tool_Main.analyze_genomic_data.
  change (String.eqb "Genomic Abundance Analyzer" "Exon Edge Finder")
    with false.
  change (String.eqb "Genomic Abundance Analyzer" "Genomic Abundance Analyzer")
    with true.
  cbv iota.
  unfold Genomic_Analysis_Tool.measure_transcription_abundance.
  rewrite (parse_plain d1 d2 d3 tok H1 H2 H3 H4 C2 C3), bind_ret_l.
  cbn [Genomic_Analysis_Tool.for_bigwig_files].
  rewrite Ho, bind_ret_l, Hv, !bind_ret_l. reflexivity.
Qed.

End CommandFacts.

(** ** From the junction text to the edges *)

Section DecodingFacts.

Open Scope string_scope.

Variable float_of_string : string -> option float.

Local Abbreviation junction_of_fields :=
  (Genomic_Analysis_Tool.junction_of_fields float_of_string).
Local Abbreviation identify_exon_edges :=
  (Genomic_Analysis_Tool.identify_exon_edges float_of_string).

Lemma quiet_bind {A B} (m : py A) (k : A -> py B) :
  quiet m -> (forall a, quiet (k a)) -> quiet (bind m k).
Proof.
  intros [[a ->] | [-> | ->]] Hk.
  - rewrite bind_ret_l. apply Hk.
  - right. left. reflexivity.
  - right. right. reflexivity.
Qed.

Lemma quiet_ret {A} (a : A) : quiet (ret a).
Proof. left. now exists a. Qed.

Lemma quiet_index {A} (xs : list A) (i : nat) : quiet (index xs i).
Proof.
  unfold index. destruct (nth_error xs i).
  - apply quiet_ret.
  - right. right. reflexivity.
Qed.

Lemma quiet_int (s : string) : quiet (PyStr.int s).
Proof.
  unfold PyStr.int. destruct (PyStr.int_of_string s).
  - apply quiet_ret.
  - right. left. reflexivity.
Qed.

Lemma quiet_to_float (s : string) :
  quiet (Genomic_Analysis_Tool.to_float float_of_string s).
Proof.
  unfold Genomic_Analysis_Tool.to_float. destruct (float_of_string s).
  - apply quiet_ret.
  - right. left. reflexivity.
Qed.

Lemma quiet_junction_of_fields (j : list string) :
  quiet (junction_of_fields j).
Proof.
  unfold Genomic_Analysis_Tool.junction_of_fields.
  repeat (apply quiet_bind;
          [first [apply quiet_index | apply quiet_int | apply quiet_to_float]
          | intros ?]).
  apply quiet_ret.
Qed.

Lemma quiet_comprehension {A B} (g : A -> py B) (l : list A) :
  (forall a, quiet (g a)) -> quiet (comprehension g l).
Proof.
  intros Hg. induction l as [|a l IH]; cbn [comprehension].
  - apply quiet_ret.
  - apply quiet_bind; [apply Hg|]. intros b.
    apply quiet_bind; [exact IH|]. intros bs. apply quiet_ret.
Qed.

(** X15. [identify_exon_edges] prints nothing and never exits: it returns a
    list of edges, or raises [ValueError] or [IndexError]. *)
Theorem identify_exon_edges_is_quiet (genomic_coordinate junction_data : string) :
  (exists edges,
     identify_exon_edges genomic_coordinate junction_data = ([], Returns edges))
  \/ identify_exon_edges genomic_coordinate junction_data
     = ([], Raises ValueError)
  \/ identify_exon_edges genomic_coordinate junction_data
     = ([], Raises IndexError).
Proof.
  unfold Genomic_Analysis_Tool.identify_exon_edges. cbv zeta.
  apply (quiet_bind (comprehension junction_of_fields _)).
  - apply quiet_comprehension, quiet_junction_of_fields.
  - intros js. apply quiet_ret.
Qed.

Lemma junction_of_fields_ret (j : list string) (x : junction) :
  junction_of_fields j = ret x <-> decodes float_of_string j x.
Proof.
  unfold Genomic_Analysis_Tool.junction_of_fields, decodes, index, PyStr.int,
    Genomic_Analysis_Tool.to_float.
  destruct (nth_error j 3) as [f3|]; [|split; [discriminate|]].
  2:{ intros (? & ? & ? & H & _). discriminate H. }
  rewrite bind_ret_l.
  destruct (PyStr.int_of_string f3) as [a|] eqn:E3; [|split; [discriminate|]].
  2:{ intros (? & ? & ? & H & _ & _ & H' & _). injection H as <-.
      rewrite E3 in H'. discriminate H'. }
  rewrite bind_ret_l.
  destruct (nth_error j 4) as [f4|]; [|split; [discriminate|]].
  2:{ intros (? & ? & ? & _ & H & _). discriminate H. }
  rewrite bind_ret_l.
  destruct (PyStr.int_of_string f4) as [b|] eqn:E4; [|split; [discriminate|]].
  2:{ intros (? & ? & ? & _ & H & _ & _ & H' & _). injection H as <-.
      rewrite E4 in H'. discriminate H'. }
  rewrite bind_ret_l.
  destruct (nth_error j 14) as [f14|]; [|split; [discriminate|]].
  2:{ intros (? & ? & ? & _ & _ & H & _). discriminate H. }
  rewrite bind_ret_l.
  destruct (float_of_string f14) as [c|] eqn:E14; [|split; [discriminate|]].
  2:{ intros (? & ? & ? & _ & _ & H & _ & _ & H'). injection H as <-.
      rewrite E14 in H'. discriminate H'. }
  rewrite bind_ret_l. destruct x as [[s e] c']. unfold j_start, j_end,
    j_coverage, ret. simpl. split.
  - intros H. injection H as <- <- <-. exists f3, f4, f14.
    repeat split; assumption.
  - intros (g3 & g4 & g14 & H3 & H4 & H14 & Ha & Hb & Hc).
    injection H3 as <-. injection H4 as <-. injection H14 as <-.
    rewrite E3 in Ha. rewrite E4 in Hb. rewrite E14 in Hc.
    injection Ha as <-. injection Hb as <-. injection Hc as <-. reflexivity.
Qed.

Lemma comprehension_ret {A B} (g : A -> py B) (l : list A) (bs : list B) :
  (forall a, quiet (g a)) ->
  comprehension g l = ret bs <-> Forall2 (fun a b => g a = ret b) l bs.
Proof.
  intros Hg. revert bs. induction l as [|a l IH]; intros bs; cbn [comprehension].
  - split.
    + intros H. injection H as <-. constructor.
    + intros H. inversion H. reflexivity.
  - destruct (Hg a) as [[b Eb] | [Eb | Eb]]; rewrite Eb.
    + rewrite bind_ret_l.
      destruct (quiet_comprehension g l Hg) as [[bs' Ebs] | [Ebs | Ebs]];
        rewrite Ebs.
      * rewrite bind_ret_l. split.
        -- intros H. injection H as <-. constructor; [exact Eb|].
           now apply IH.
        -- intros H. inversion H as [|? b' ? bs'' Hb Hl]; subst.
           rewrite Eb in Hb. injection Hb as <-.
           apply IH in Hl. rewrite Ebs in Hl. injection Hl as <-. reflexivity.
      * split; [discriminate|]. intros H.
        inversion H as [|? b' ? bs'' Hb Hl]; subst.
        apply IH in Hl. rewrite Ebs in Hl. discriminate Hl.
      * split; [discriminate|]. intros H.
        inversion H as [|? b' ? bs'' Hb Hl]; subst.
        apply IH in Hl. rewrite Ebs in Hl. discriminate Hl.
    + split; [discriminate|]. intros H.
      inversion H as [|? b' ? bs'' Hb Hl]; subst.
      rewrite Eb in Hb. discriminate Hb.
    + split; [discriminate|]. intros H.
      inversion H as [|? b' ? bs'' Hb Hl]; subst.
      rewrite Eb in Hb. discriminate Hb.
Qed.

(** X16. All or nothing: [identify_exon_edges] returns edges exactly when
    every data line holds a record, and the edges are then those of
    [infer_exon_edges] on the records in the order of the lines.  One line
    that does not decode leaves no edges at all. *)
Theorem identify_exon_edges_decodes_every_line
    (genomic_coordinate junction_data : string) (edges : list exon_edge) :
  identify_exon_edges genomic_coordinate junction_data = ret edges
  <-> exists junctions,
        Forall2 (decodes float_of_string) (data_lines junction_data) junctions
        /\ edges = infer_exon_edges junctions.
Proof.
  unfold Genomic_Analysis_Tool.identify_exon_edges. cbv zeta.
  fold (data_lines junction_data).
  destruct (quiet_comprehension junction_of_fields (data_lines junction_data)
              quiet_junction_of_fields) as [[js E] | [E | E]]; rewrite E.
  - rewrite bind_ret_l.
    apply (comprehension_ret _ _ _ quiet_junction_of_fields) in E.
    split.
    + intros H. injection H as <-. exists js. split; [|reflexivity].
      eapply Forall2_impl; [|exact E].
      intros a b. apply junction_of_fields_ret.
    + intros (js' & Hd & ->).
      assert (E' : comprehension junction_of_fields (data_lines junction_data)
                   = ret js').
      { apply (comprehension_ret _ _ _ quiet_junction_of_fields).
        eapply Forall2_impl; [|exact Hd].
        intros a b. apply junction_of_fields_ret. }
      apply (comprehension_ret _ _ _ quiet_junction_of_fields) in E'.
      assert (js = js').
      { clear -E E'. revert js' E'.
        induction E as [|a b l bs Hab _ IH]; intros js' E';
          inversion E' as [|? b' ? bs' Hab' Hl']; subst; [reflexivity|].
        rewrite Hab in Hab'. injection Hab' as <-. f_equal. now apply IH. }
      now subst.
  - split; [discriminate|]. intros (js' & Hd & _).
    assert (E' : comprehension junction_of_fields (data_lines junction_data)
                 = ret js').
    { apply (comprehension_ret _ _ _ quiet_junction_of_fields).
      eapply Forall2_impl; [|exact Hd].
      intros a b. apply junction_of_fields_ret. }
    rewrite E in E'. discriminate E'.
  - split; [discriminate|]. intros (js' & Hd & _).
    assert (E' : comprehension junction_of_fields (data_lines junction_data)
                 = ret js').
    { apply (comprehension_ret _ _ _ quiet_junction_of_fields).
      eapply Forall2_impl; [|exact Hd].
      intros a b. apply junction_of_fields_ret. }
    rewrite E in E'. discriminate E'.
Qed.

End DecodingFacts.

(** ** Blanks and the header in the junction text *)

Section TextFacts.

Open Scope string_scope.

Lemma lstrip_by_app (p : ascii -> bool) (a b : string) :
  PyStr.lstrip_by p (a ++ b)
  = if PyStr.is_empty (PyStr.lstrip_by p a) then PyStr.lstrip_by p b
    else PyStr.lstrip_by p a ++ b.
Proof.
  induction a as [|c a IH]; simpl.
  - reflexivity.
  - destruct (p c); [exact IH | reflexivity].
Qed.

Lemma rstrip_by_app (p : ascii -> bool) (a b : string) :
  PyStr.rstrip_by p (a ++ b)
  = if PyStr.is_empty (PyStr.rstrip_by p b) then PyStr.rstrip_by p a
    else a ++ PyStr.rstrip_by p b.
Proof.
  induction a as [|c a IH]; simpl.
  - destruct (PyStr.rstrip_by p b); reflexivity.
  - rewrite IH. destruct (PyStr.rstrip_by p b) as [|d t]; simpl.
    + reflexivity.
    + destruct a; simpl; now rewrite andb_false_r.
Qed.

Lemma lstrip_by_all (p : ascii -> bool) (w : string) :
  string_forall p w = true -> PyStr.lstrip_by p w = "".
Proof.
  induction w as [|c w IH]; simpl; intros H; [reflexivity|].
  apply andb_prop in H. destruct H as [Hc Hw]. rewrite Hc. now apply IH.
Qed.

Lemma rstrip_by_all (p : ascii -> bool) (w : string) :
  string_forall p w = true -> PyStr.rstrip_by p w = "".
Proof.
  induction w as [|c w IH]; simpl; intros H; [reflexivity|].
  apply andb_prop in H. destruct H as [Hc Hw]. rewrite (IH Hw), Hc.
  reflexivity.
Qed.

Lemma strip_app_blank_r (s w : string) :
  blank w -> PyStr.strip (s ++ w) = PyStr.strip s.
Proof.
  unfold blank, PyStr.strip. intros Hw. rewrite lstrip_by_app.
  destruct (PyStr.lstrip_by PyStr.is_space s) as [|c t] eqn:E; simpl.
  - now rewrite (lstrip_by_all _ w Hw).
  - change (String c (t ++ w)) with (String c t ++ w).
    rewrite rstrip_by_app, (rstrip_by_all _ w Hw). reflexivity.
Qed.

Lemma strip_app_blank_l (w s : string) :
  blank w -> PyStr.strip (w ++ s) = PyStr.strip s.
Proof.
  unfold blank, PyStr.strip. intros Hw.
  now rewrite lstrip_by_app, (lstrip_by_all _ w Hw).
Qed.

Lemma string_forall_rstrip_by (q p : ascii -> bool) (s : string) :
  string_forall q s = true -> string_forall q (PyStr.rstrip_by p s) = true.
Proof.
  induction s as [|c s IH]; simpl; intros H; [reflexivity|].
  apply andb_prop in H. destruct H as [Hc Hs].
  destruct (p c && PyStr.is_empty (PyStr.rstrip_by p s))%bool; simpl.
  - reflexivity.
  - now rewrite Hc, (IH Hs).
Qed.

Lemma split_without_sep (sep : ascii) (h : string) :
  string_forall (fun c => negb (Ascii.eqb c sep)) h = true ->
  PyStr.split sep h = [h].
Proof.
  induction h as [|c h IH]; simpl; intros H; [reflexivity|].
  apply andb_prop in H. destruct H as [Hc Hh].
  apply negb_true_iff in Hc. now rewrite Hc, (IH Hh).
Qed.

Lemma split_at_first_sep (sep : ascii) (h rest : string) :
  string_forall (fun c => negb (Ascii.eqb c sep)) h = true ->
  PyStr.split sep (h ++ String sep rest) = h :: PyStr.split sep rest.
Proof.
  induction h as [|c h IH]; simpl; intros H.
  - now rewrite Ascii.eqb_refl.
  - apply andb_prop in H. destruct H as [Hc Hh].
    apply negb_true_iff in Hc. now rewrite Hc, (IH Hh).
Qed.

Lemma lstrip_by_stops (p : ascii -> bool) (s : string) :
  stops p s = true -> PyStr.lstrip_by p s = s.
Proof.
  destruct s as [|c s]; simpl; intros H; [reflexivity|].
  apply negb_true_iff in H. now rewrite H.
Qed.

Lemma rstrip_newline (body : string) :
  PyStr.rstrip_by PyStr.is_space (String "010" body)
  = if PyStr.is_empty (PyStr.rstrip_by PyStr.is_space body) then ""
    else String "010" (PyStr.rstrip_by PyStr.is_space body).
Proof. reflexivity. Qed.

Lemma is_empty_false (s : string) : s <> "" -> PyStr.is_empty s = false.
Proof.
  destruct s; [intros H; now elim H | reflexivity].
Qed.

(** The lines after a header depend on what follows the header only. *)
Lemma lines_after_header (h body : string) :
  header_line h ->
  tl (PyStr.split "010" (PyStr.strip (h ++ newline ++ body)))
  = if PyStr.is_empty (PyStr.rstrip_by PyStr.is_space body) then []
    else PyStr.split "010" (PyStr.rstrip_by PyStr.is_space body).
Proof.
  intros (Hstart & Hne & Hnl). unfold PyStr.strip.
  rewrite lstrip_by_app, (lstrip_by_stops _ h Hstart), (is_empty_false h Hne).
  change (newline ++ body) with (String "010" body).
  rewrite rstrip_by_app, rstrip_newline.
  destruct (PyStr.rstrip_by PyStr.is_space body) as [|d t] eqn:E;
    cbn [PyStr.is_empty].
  - rewrite (split_without_sep "010" (PyStr.rstrip_by PyStr.is_space h));
      [reflexivity|].
    now apply string_forall_rstrip_by.
  - now rewrite (split_at_first_sep "010" h (String d t) Hnl).
Qed.

End TextFacts.

Section TextTheorems.

Open Scope string_scope.

Variable float_of_string : string -> option float.

Local Abbreviation junction_of_fields :=
  (Genomic_Analysis_Tool.junction_of_fields float_of_string).
Local Abbreviation identify_exon_edges :=
  (Genomic_Analysis_Tool.identify_exon_edges float_of_string).

(** X17. Blanks around the junction text, final newlines among them, change
    nothing.  They are taken off before the first line is dropped, so
    blank lines in front of the header do not count as the header. *)
Theorem identify_exon_edges_ignores_outer_blanks
    (genomic_coordinate before junction_data after : string) :
  blank before -> blank after ->
  identify_exon_edges genomic_coordinate (before ++ junction_data ++ after)
  = identify_exon_edges genomic_coordinate junction_data.
Proof.
  intros Hb Ha. unfold Genomic_Analysis_Tool.identify_exon_edges.
  now rewrite (strip_app_blank_l before _ Hb), (strip_app_blank_r _ after Ha).
Qed.

(** X18. The header line is never read: two texts that differ in the header
    only give the same result.  A text of a header and blanks gives no
    edge. *)
Theorem identify_exon_edges_never_reads_header
    (genomic_coordinate h1 h2 body : string) :
  header_line h1 -> header_line h2 ->
  identify_exon_edges genomic_coordinate (h1 ++ newline ++ body)
  = identify_exon_edges genomic_coordinate (h2 ++ newline ++ body)
  /\ (blank body ->
      identify_exon_edges genomic_coordinate (h1 ++ newline ++ body) = ret []).
Proof.
  intros H1 H2. unfold Genomic_Analysis_Tool.identify_exon_edges.
  rewrite (lines_after_header h1 body H1), (lines_after_header h2 body H2).
  split; [reflexivity|].
  intros Hb. now rewrite (rstrip_by_all _ body Hb).
Qed.

Lemma comprehension_first_failure {A B} (g : A -> py B)
    (before : list A) (bad : A) (after : list A) (e : exn) :
  Forall (fun a => exists b, g a = ret b) before ->
  g bad = raise e ->
  comprehension g (before ++ bad :: after) = raise e.
Proof.
  intros Hb Hbad. induction Hb as [|a before [b Ea] _ IH];
    cbn [app comprehension].
  - now rewrite Hbad.
  - now rewrite Ea, bind_ret_l, IH.
Qed.

(** X19. The first data line that does not decode decides the exception: with
    fewer than four fields it is [IndexError]; with a fourth field that
    [int] does not read it is [ValueError].  The lines after it are not
    looked at. *)
Theorem identify_exon_edges_first_bad_line
    (genomic_coordinate junction_data : string)
    (before : list (list string)) (bad : list string)
    (after : list (list string)) :
  data_lines junction_data = (before ++ bad :: after)%list ->
  Forall (fun j => exists x, decodes float_of_string j x) before ->
  (nth_error bad 3 = None ->
   identify_exon_edges genomic_coordinate junction_data = raise IndexError)
  /\ (forall f3, nth_error bad 3 = Some f3 ->
        PyStr.int_of_string f3 = None ->
        identify_exon_edges genomic_coordinate junction_data
        = raise ValueError).
Proof.
  intros Hlines Hbefore.
  assert (Hb : Forall (fun j => exists x, junction_of_fields j = ret x) before).
  { eapply Forall_impl; [|exact Hbefore]. intros j [x Hx]. exists x.
    now apply junction_of_fields_ret. }
  unfold Genomic_Analysis_Tool.identify_exon_edges. cbv zeta.
  fold (data_lines junction_data). rewrite Hlines. split.
  - intros Hshort.
    rewrite (comprehension_first_failure _ before bad after IndexError Hb);
      [reflexivity|].
    unfold Genomic_Analysis_Tool.junction_of_fields, index.
    now rewrite Hshort.
  - intros f3 Hf3 Hint.
    rewrite (comprehension_first_failure _ before bad after ValueError Hb);
      [reflexivity|].
    unfold Genomic_Analysis_Tool.junction_of_fields, index, PyStr.int.
    now rewrite Hf3, bind_ret_l, Hint.
Qed.

End TextTheorems.

Lemma identify_exon_edges_ignores_outer_blanks_witness :
  Genomic_Analysis_Tool.identify_exon_edges (fun _ => None) "chr1:1-2_+"
    (String.append newline (String.append "header" newline))
  = Genomic_Analysis_Tool.identify_exon_edges (fun _ => None) "chr1:1-2_+"
      "header".
Proof.
  apply (identify_exon_edges_ignores_outer_blanks (fun _ => None)
           "chr1:1-2_+" newline "header" newline); reflexivity.
Defined.

Lemma identify_exon_edges_never_reads_header_witness :
  Genomic_Analysis_Tool.identify_exon_edges (fun _ => None) "chr1:1-2_+"
    (String.append "snaptron_id" (String.append newline " "))
  = ret [].
Proof.
  assert (H1 : header_line "snaptron_id").
  { split; [reflexivity|]. split; [discriminate | reflexivity]. }
  assert (H2 : header_line "DataSource:Type").
  { split; [reflexivity|]. split; [discriminate | reflexivity]. }
  assert (Hb : blank " ") by reflexivity.
  exact (proj2 (identify_exon_edges_never_reads_header (fun _ => None)
                  "chr1:1-2_+" "snaptron_id" "DataSource:Type" " " H1 H2) Hb).
Defined.

Lemma identify_exon_edges_first_bad_line_witness :
  Genomic_Analysis_Tool.identify_exon_edges (fun _ => None) "chr1:1-2_+"
    (String.append "header" (String.append newline "too short"))
  = raise IndexError.
Proof.
  apply (proj1 (identify_exon_edges_first_bad_line (fun _ => None)
                  "chr1:1-2_+"
                  (String.append "header" (String.append newline "too short"))
                  [] ["too short"%string] [] eq_refl (Forall_nil _))).
  reflexivity.
Defined.

(** ** More on the edges *)

Section EdgeFacts.

(** With pairwise distinct starts there is one sorted arrangement. *)
Lemma sorted_perm_unique (a b : list junction) :
  StronglySorted le_start a -> StronglySorted le_start b ->
  Permutation a b -> NoDup (map j_start a) -> a = b.
Proof.
  intros Ha. revert b. induction Ha as [|x a Ha IH Hx]; intros b Hb Hp Hn.
  - apply Permutation_nil in Hp. now subst.
  - destruct b as [|y b].
    + apply Permutation_sym, Permutation_nil_cons in Hp. contradiction.
    + inversion Hb as [|? ? Hb' Hy]; subst. inversion Hn as [|? ? Hnx Hn']; subst.
      assert (Exy : x = y).
      { assert (Ix : In x (y :: b))
          by (eapply Permutation_in; [exact Hp | now left]).
        assert (Iy : In y (x :: a))
          by (eapply Permutation_in; [apply Permutation_sym, Hp | now left]).
        destruct Ix as [-> | Ix]; [reflexivity|].
        destruct Iy as [-> | Iy]; [reflexivity|].
        rewrite Forall_forall in Hx, Hy.
        pose proof (Hx y Iy) as L1. pose proof (Hy x Ix) as L2.
        unfold le_start in L1, L2.
        elim Hnx. replace (j_start x) with (j_start y) by lia.
        now apply in_map. }
      subst y. f_equal. apply IH; [assumption | | assumption].
      now apply Permutation_cons_inv in Hp.
Qed.

(** X20. The order of the records plays no part when their starts are pairwise
    distinct: any rearrangement of the input gives the same edges. *)
Theorem infer_exon_edges_order_independent (l l' : list junction) :
  NoDup (map j_start l) -> Permutation l l' ->
  infer_exon_edges l = infer_exon_edges l'.
Proof.
  intros Hn Hp. unfold infer_exon_edges.
  rewrite (sorted_perm_unique (sort_by_start l) (sort_by_start l'));
    [reflexivity | apply sort_by_start_sorted | apply sort_by_start_sorted | |].
  - eapply perm_trans; [apply sort_by_start_perm|].
    eapply perm_trans; [exact Hp | apply Permutation_sym, sort_by_start_perm].
  - eapply Permutation_NoDup; [|exact Hn].
    apply Permutation_map, Permutation_sym, sort_by_start_perm.
Qed.

Lemma loop_body_no_end_without_start (st : loop_state) (j : junction) :
  no_end_without_start st -> no_end_without_start (loop_body st j).
Proof.
  destruct j as [[s e] c]. unfold no_end_without_start, loop_body.
  destruct (above_threshold c), (current_start st) eqn:E; simpl;
    rewrite ?E; auto; discriminate.
Qed.

Lemma loop_no_end_without_start (l : list junction) (st : loop_state) :
  no_end_without_start st -> no_end_without_start (fold_left loop_body l st).
Proof.
  revert st. induction l as [|j l IH]; intros st H; [exact H|].
  cbn [fold_left]. apply IH. now apply loop_body_no_end_without_start.
Qed.

Lemma loop_body_with_earlier_edges (es : list exon_edge) (st : loop_state)
    (j : junction) :
  loop_body (with_earlier_edges es st) j
  = with_earlier_edges es (loop_body st j).
Proof.
  destruct j as [[s e] c]. destruct st as [es' cs ce].
  unfold with_earlier_edges, loop_body. simpl.
  destruct (above_threshold c), cs; simpl; rewrite ?app_assoc; reflexivity.
Qed.

Lemma loop_with_earlier_edges (es : list exon_edge) (l : list junction)
    (st : loop_state) :
  fold_left loop_body l (with_earlier_edges es st)
  = with_earlier_edges es (fold_left loop_body l st).
Proof.
  revert st. induction l as [|j l IH]; intros st; [reflexivity|].
  cbn [fold_left]. now rewrite loop_body_with_earlier_edges, IH.
Qed.

Lemma after_loop_with_earlier_edges (es : list exon_edge) (st : loop_state) :
  after_loop (with_earlier_edges es st) = es ++ after_loop st.
Proof.
  unfold after_loop, with_earlier_edges. simpl.
  destruct (current_start st); [now rewrite app_assoc | reflexivity].
Qed.

(** A record that does not qualify closes what is open. *)
Lemma loop_body_not_above_closes (st : loop_state) (j : junction) :
  no_end_without_start st -> not_above j ->
  loop_body st j = mkState (after_loop st) None None.
Proof.
  destruct j as [[s e] c]. unfold not_above, j_coverage, loop_body, after_loop.
  simpl. intros Hst ->. destruct st as [es cs ce]. simpl.
  unfold no_end_without_start in Hst. simpl in Hst.
  destruct cs; [reflexivity|]. now rewrite Hst.
Qed.

Lemma insert_by_start_before (j b : junction) (l l' : list junction) :
  j_start j <= j_start b ->
  insert_by_start j (l ++ b :: l') = insert_by_start j l ++ b :: l'.
Proof.
  intros Hjb. induction l as [|x l IH]; simpl.
  - apply Z.leb_le in Hjb. now rewrite Hjb.
  - destruct (j_start j <=? j_start x); [reflexivity|]. now rewrite IH.
Qed.

Lemma sort_by_start_around (l1 : list junction) (b : junction)
    (l2 : list junction) :
  Forall (fun j => j_start j <= j_start b) l1 ->
  Forall (fun j => j_start b <= j_start j) l2 ->
  sort_by_start (l1 ++ b :: l2) = sort_by_start l1 ++ b :: sort_by_start l2.
Proof.
  intros H1 H2. induction H1 as [|x l1 Hx _ IH]; cbn [app sort_by_start].
  - assert (H2' : Forall (fun j => j_start b <= j_start j) (sort_by_start l2)).
    { eapply Permutation_Forall; [|exact H2].
      apply Permutation_sym, sort_by_start_perm. }
    destruct (sort_by_start l2) as [|y l]; [reflexivity|].
    inversion H2' as [|? ? Hy _]; subst. simpl.
    apply Z.leb_le in Hy. now rewrite Hy.
  - rewrite IH. now apply insert_by_start_before.
Qed.

(** X21. A record that does not qualify separates: when no record before it
    starts after it and no record after it starts before it, the edges of
    the whole are the edges of the part before it followed by the edges of
    the part after it. *)
Theorem infer_exon_edges_splits_at_gap (l1 : list junction) (b : junction)
    (l2 : list junction) :
  not_above b ->
  Forall (fun j => j_start j <= j_start b) l1 ->
  Forall (fun j => j_start b <= j_start j) l2 ->
  infer_exon_edges (l1 ++ b :: l2)
  = infer_exon_edges l1 ++ infer_exon_edges l2.
Proof.
  intros Hb H1 H2. unfold infer_exon_edges.
  rewrite (sort_by_start_around l1 b l2 H1 H2), fold_left_app.
  cbn [fold_left].
  rewrite loop_body_not_above_closes;
    [| apply loop_no_end_without_start; intros _; reflexivity | exact Hb].
  set (es := after_loop (fold_left loop_body (sort_by_start l1) initial_state)).
  replace (mkState es None None)
    with (with_earlier_edges es initial_state)
    by (unfold with_earlier_edges; simpl; now rewrite app_nil_r).
  now rewrite loop_with_earlier_edges, after_loop_with_earlier_edges.
Qed.

End EdgeFacts.

Section EdgeProvenance.

Lemma loop_edges_from (Ps Pe : Z -> Prop) (l : list junction) :
  Forall (fun j => above j -> Ps (j_start j) /\ Pe (j_end j)) l ->
  forall st,
    Forall (edge_from Ps Pe) (exon_edges st) ->
    (forall cs, current_start st = Some cs ->
       edge_from Ps Pe (cs, current_end st)) ->
    Forall (edge_from Ps Pe) (after_loop (fold_left loop_body l st)).
Proof.
  induction 1 as [|[[s e] c] l Hj _ IH]; intros st He Hc.
  - simpl. unfold after_loop.
    destruct (current_start st) as [cs|] eqn:E; [|exact He].
    rewrite Forall_app. split; [exact He|].
    constructor; [now apply Hc | constructor].
  - cbn [fold_left]. unfold above, j_coverage, j_start, j_end in Hj.
    simpl in Hj. apply IH; unfold loop_body.
    + destruct (above_threshold c), (current_start st) as [cs|] eqn:E;
        simpl; try exact He.
      rewrite Forall_app. split; [exact He|].
      constructor; [now apply Hc | constructor].
    + intros cs'.
      destruct (above_threshold c), (current_start st) as [cs|] eqn:E;
        simpl; rewrite ?E; intros H; try discriminate H.
      * injection H as <-. destruct (Hj eq_refl) as [_ Hpe].
        destruct (Hc cs eq_refl) as [Hps _].
        split; [exact Hps|]. now exists e.
      * injection H as <-. destruct (Hj eq_refl) as [Hps Hpe].
        split; [exact Hps|]. now exists e.
Qed.

(** X22. Every edge is built from records that qualify: its start is the start
    of a record of the input whose coverage passes the test, and its end,
    never [None], is the end of such a record. *)
Theorem infer_exon_edges_from_qualifying_records (junctions : list junction) :
  Forall
    (fun x =>
       (exists j, In j junctions /\ above j /\ fst x = j_start j)
       /\ (exists j, In j junctions /\ above j /\ snd x = Some (j_end j)))
    (infer_exon_edges junctions).
Proof.
  set (Ps := fun z => exists j, In j junctions /\ above j /\ z = j_start j).
  set (Pe := fun z => exists j, In j junctions /\ above j /\ z = j_end j).
  assert (H : Forall (edge_from Ps Pe) (infer_exon_edges junctions)).
  { unfold infer_exon_edges. apply loop_edges_from.
    - eapply Permutation_Forall;
        [apply Permutation_sym, sort_by_start_perm|].
      apply Forall_forall. intros j Hj Ha.
      split; exists j; repeat split; assumption.
    - constructor.
    - intros cs H. discriminate H. }
  eapply Forall_impl; [|exact H].
  intros x [Hs (e & He & j & Hj & Ha & ->)]. split; [exact Hs|].
  exists j. repeat split; assumption.
Qed.

Lemma insert_by_start_same (j j' : junction) (l l' : list junction) :
  same_but_coverage j j' -> Forall2 same_but_coverage l l' ->
  Forall2 same_but_coverage (insert_by_start j l) (insert_by_start j' l').
Proof.
  intros Hj Hl. induction Hl as [|x x' l l' Hx Hl IH]; simpl.
  - constructor; [exact Hj | constructor].
  - replace (j_start j' <=? j_start x') with (j_start j <=? j_start x)
      by (destruct Hj as (-> & _); destruct Hx as (-> & _); reflexivity).
    destruct (j_start j <=? j_start x).
    + constructor; [exact Hj|]. constructor; [exact Hx | exact Hl].
    + constructor; [exact Hx | exact IH].
Qed.

Lemma sort_by_start_same (l l' : list junction) :
  Forall2 same_but_coverage l l' ->
  Forall2 same_but_coverage (sort_by_start l) (sort_by_start l').
Proof.
  induction 1 as [|j j' l l' Hj _ IH]; simpl.
  - constructor.
  - now apply insert_by_start_same.
Qed.

Lemma loop_same (l l' : list junction) :
  Forall2 same_but_coverage l l' ->
  forall st, fold_left loop_body l st = fold_left loop_body l' st.
Proof.
  induction 1 as [|[[s e] c] [[s' e'] c'] l l' Hj _ IH]; intros st.
  - reflexivity.
  - cbn [fold_left]. destruct Hj as (Es & Ee & Ec).
    unfold j_start, j_end, j_coverage in Es, Ee, Ec. simpl in Es, Ee, Ec.
    subst s' e'.
    assert (E : loop_body st (s, e, c) = loop_body st (s, e, c')).
    { unfold loop_body. now rewrite Ec. }
    rewrite E. apply IH.
Qed.

(** X23. The coverage of a record counts only through the test: changing the
    coverages without changing which records pass it changes no edge. *)
Theorem infer_exon_edges_reads_coverage_through_test (l l' : list junction) :
  Forall2 same_but_coverage l l' ->
  infer_exon_edges l = infer_exon_edges l'.
Proof.
  intros H. unfold infer_exon_edges.
  now rewrite (loop_same _ _ (sort_by_start_same l l' H)).
Qed.

End EdgeProvenance.

Lemma infer_exon_edges_order_independent_witness :
  infer_exon_edges [(150, 200, 2.0%float); (100, 150, 1.0%float)]
  = infer_exon_edges [(100, 150, 1.0%float); (150, 200, 2.0%float)].
Proof.
  apply (infer_exon_edges_order_independent
           [(150, 200, 2.0%float); (100, 150, 1.0%float)]
           [(100, 150, 1.0%float); (150, 200, 2.0%float)]).
  - simpl. constructor.
    + intros [H | []]. discriminate H.
    + constructor; [intros [] | constructor].
  - apply perm_swap.
Defined.

Lemma infer_exon_edges_splits_at_gap_witness :
  infer_exon_edges
    [(100, 150, 1.0%float); (150, 200, 0.3%float); (200, 250, 2.0%float)]
  = infer_exon_edges [(100, 150, 1.0%float)]
    ++ infer_exon_edges [(200, 250, 2.0%float)].
Proof.
  apply (infer_exon_edges_splits_at_gap [(100, 150, 1.0%float)]
           (150, 200, 0.3%float) [(200, 250, 2.0%float)]).
  - reflexivity.
  - repeat constructor. unfold j_start. simpl. lia.
  - repeat constructor. unfold j_start. simpl. lia.
Defined.

Lemma infer_exon_edges_reads_coverage_through_test_witness :
  infer_exon_edges [(100, 150, 1.0%float); (150, 200, 0.5%float)]
  = infer_exon_edges [(100, 150, 77.0%float); (150, 200, 0.0%float)].
Proof.
  apply (infer_exon_edges_reads_coverage_through_test
           [(100, 150, 1.0%float); (150, 200, 0.5%float)]
           [(100, 150, 77.0%float); (150, 200, 0.0%float)]).
  repeat constructor.
Defined.

(** ** The grid of plots *)

Section GridFacts.

Import V2_subplots.

(** X24. Every coordinate of a batch gets a cell of the grid that was asked
    for, and two coordinates never get the same cell. *)
Theorem cell_is_inside_the_grid (num_plots i : Z) :
  0 <= i < num_plots ->
  (exists row col,
     cell num_plots i = Some (row, col)
     /\ 0 <= row < num_rows num_plots /\ 0 <= col < num_cols num_plots)
  /\ (forall j, 0 <= j < num_plots ->
        cell num_plots i = cell num_plots j -> i = j).
Proof.
  intros Hi.
  assert (Hc : 0 < num_cols num_plots) by (unfold num_cols; lia).
  assert (Hz : (num_cols num_plots =? 0) = false) by (apply Z.eqb_neq; lia).
  unfold cell, floordiv, modulo. rewrite Hz. split.
  - exists (i / num_cols num_plots), (i mod num_cols num_plots).
    split; [reflexivity|].
    pose proof (Z.mod_pos_bound i (num_cols num_plots) Hc) as Hm.
    split; [|exact Hm].
    unfold num_rows, num_cols in *.
    destruct (Z.min_spec num_plots 3) as [[Hlt ->] | [Hge ->]].
    + rewrite (Z.div_small i num_plots) by lia.
      rewrite (Z.div_small (num_plots - 1) 3) by lia. lia.
    + split; [apply Z.div_pos; lia|].
      assert (i / 3 <= (num_plots - 1) / 3) by (apply Z.div_le_mono; lia).
      lia.
  - intros j Hj H. injection H as Hq Hr.
    rewrite (Z.div_mod i (num_cols num_plots)) by lia.
    rewrite (Z.div_mod j (num_cols num_plots)) by lia.
    now rewrite Hq, Hr.
Qed.

Lemma cell_is_inside_the_grid_witness :
  exists row col,
    cell 5 4 = Some (row, col)
    /\ 0 <= row < num_rows 5 /\ 0 <= col < num_cols 5.
Proof.
  apply (proj1 (cell_is_inside_the_grid 5 4 ltac:(lia))).
Defined.

End GridFacts.

(** ** The arrays of the scatter plot *)

Section ArrayFacts.

Import Analysis_Plot_arrays.

Lemma combine_map_same {A B C} (f : A -> B) (g : A -> C) (l : list A) :
  combine (map f l) (map g l) = map (fun x => (f x, g x)) l.
Proof.
  induction l as [|x l IH]; simpl; [reflexivity | now rewrite IH].
Qed.

Lemma combine_app_same_length {A B} (a a' : list A) (b b' : list B) :
  List.length a = List.length b ->
  combine (a ++ a') (b ++ b') = combine a b ++ combine a' b'.
Proof.
  revert b. induction a as [|x a IH]; intros [|y b] H; simpl in *;
    try discriminate; [reflexivity|].
  now rewrite IH by lia.
Qed.

(** X25. The two arrays handed to the scatter plot have the same length, twice
    the number of junctions, and pair every start and every end with the
    coverage of its own junction. *)
Theorem positions_pair_with_own_coverage (junction_data : list junction) :
  List.length (positions junction_data)
  = List.length (coverages junction_data)
  /\ List.length (positions junction_data)
     = (2 * List.length junction_data)%nat
  /\ combine (positions junction_data) (coverages junction_data)
     = map (fun j => (j_start j, j_coverage j)) junction_data
       ++ map (fun j => (j_end j, j_coverage j)) junction_data.
Proof.
  unfold positions, coverages. cbv zeta.
  rewrite !length_app, !length_map. repeat split; [lia|].
  rewrite combine_app_same_length by (now rewrite !length_map).
  now rewrite !combine_map_same.
Qed.

End ArrayFacts.

(** ** The command on sample inputs *)

Lemma analyze_genomic_data_mismatch_exits_witness :
  Genomic_Analysis_Tool_Main.analyze_genomic_data sample_float_of_string
    Z id Z.add unit (fun _ => ret (Some tt)) (fun _ _ _ _ => ret [Some 5])
    (fun _ => ret (mkResponse 200 sample_text))
    PyFmt.str_of_int (fun _ => "error"%string)
    "badstring" "Exon Edge Finder" None ""
  = ([Print invalid_format], SysExit 1).
Proof.
  apply (proj1 (analyze_genomic_data_mismatch_exits sample_float_of_string
                  Z id Z.add unit (fun _ => ret (Some tt))
                  (fun _ _ _ _ => ret [Some 5])
                  (fun _ => ret (mkResponse 200 sample_text))
                  PyFmt.str_of_int (fun _ => "error"%string)
                  "badstring" None ""
                  (not_locus_string_b _)
                  (fun t Et H =>
                     match H with
                     | ex_intro _ d1 (ex_intro _ d2 (ex_intro _ d3
                         (ex_intro _ tok (conj _ (conj _ (conj _ (conj _ E)))))))
                       => ltac:(subst t; discriminate Et)
                     end))).
Defined.

Lemma analyze_genomic_data_prints_edges_witness :
  Genomic_Analysis_Tool_Main.analyze_genomic_data sample_float_of_string
    Z id Z.add unit (fun _ => ret (Some tt)) (fun _ _ _ _ => ret [Some 5])
    (fun _ => ret (mkResponse 200 sample_text))
    PyFmt.str_of_int (fun _ => "error"%string)
    (locus_text "18" "79930227" "79930311" "+") "Exon Edge Finder" None ""
  = ([Print "Exon Edges:"; Print "Start: 100, End: 200"], Returns tt).
Proof.
  apply (analyze_genomic_data_prints_edges sample_float_of_string
           Z id Z.add unit (fun _ => ret (Some tt))
           (fun _ _ _ _ => ret [Some 5])
           (fun _ => ret (mkResponse 200 sample_text))
           PyFmt.str_of_int (fun _ => "error"%string)
           "18" "79930227" "79930311" "+" None ""
           (mkResponse 200 sample_text) [(100, Some 200)]);
    reflexivity.
Defined.

Lemma analyze_genomic_data_reports_bad_text_witness :
  Genomic_Analysis_Tool_Main.analyze_genomic_data sample_float_of_string
    Z id Z.add unit (fun _ => ret (Some tt)) (fun _ _ _ _ => ret [Some 5])
    (fun _ => ret (mkResponse 200
                     (String.append "header" (String.append newline "short"))))
    PyFmt.str_of_int (fun _ => "list index out of range"%string)
    (locus_text "18" "79930227" "79930311" "+") "Exon Edge Finder" None ""
  = ([Print "An error occurred: list index out of range"], Returns tt).
Proof.
  apply (analyze_genomic_data_reports_bad_text sample_float_of_string
           Z id Z.add unit (fun _ => ret (Some tt))
           (fun _ _ _ _ => ret [Some 5])
           (fun _ => ret (mkResponse 200
                            (String.append "header"
                               (String.append newline "short"))))
           PyFmt.str_of_int (fun _ => "list index out of range"%string)
           "18" "79930227" "79930311" "+" None ""
           (mkResponse 200
              (String.append "header" (String.append newline "short")))
           IndexError);
    reflexivity.
Defined.

Lemma analyze_genomic_data_prints_abundance_witness :
  Genomic_Analysis_Tool_Main.analyze_genomic_data sample_float_of_string
    Z id Z.add unit (fun _ => ret (Some tt))
    (fun _ _ _ _ => ret [Some 5; None; Some 3; None])
    (fun _ => ret (mkResponse 200 sample_text))
    PyFmt.str_of_int (fun _ => "error"%string)
    (locus_text "18" "79930227" "79930311" "+") "Genomic Abundance Analyzer"
    None "track.bw"
  = ([Print (String.append "Transcription Abundance:"
               (String.append newline "track.bw: 8"))],
     Returns tt).
Proof.
  apply (analyze_genomic_data_prints_abundance sample_float_of_string
           Z id Z.add unit (fun _ => ret (Some tt))
           (fun _ _ _ _ => ret [Some 5; None; Some 3; None])
           (fun _ => ret (mkResponse 200 sample_text))
           PyFmt.str_of_int (fun _ => "error"%string)
           "18" "79930227" "79930311" "+" None "track.bw" tt
           [Some 5; None; Some 3; None]);
    reflexivity.
Defined.

Lemma identify_exon_edges_decodes_every_line_witness :
  exists junctions,
    Forall2 (decodes sample_float_of_string) (data_lines sample_text) junctions
    /\ [(100, Some 200)] = infer_exon_edges junctions.
Proof.
  apply (proj1 (identify_exon_edges_decodes_every_line sample_float_of_string
                  "chr1:1-2_+" sample_text [(100, Some 200)])).
  reflexivity.
Defined.
